(** * Guarded remote-resource sessions: a shallow embedding

    The repository wraps three client libraries (pymysql / psycopg2, redis,
    sshtunnel + paramiko).  Its own code is control flow around calls into
    those libraries: which call is made when, which exception classes are
    caught, what is torn down on which path.  The embedding keeps exactly
    that:

    - Python values that reach the code through the configuration mapping
      are [value]s; the mapping itself is a [gmap string value];
    - every call into a client library is a [call]; the libraries' answers
      are given by a [World], a function of the history of calls made so
      far, so that a theorem quantified over [World] holds for every
      behaviour of the network and of the libraries;
    - a method is a computation in [M T A]: it reads and writes the object
      [self : T], appends to the [trace] of library calls and to the [log],
      and finishes with [Ok a] or [Raise e].  State written before an
      exception is raised stays written, as in Python.

    Only subclasses of [Exception] are modelled as exceptions: the
    interpreter's asynchronous [BaseException]s (KeyboardInterrupt,
    SystemExit) are outside the model. *)

From stdpp Require Import strings gmap list.
From Stdlib Require Import ZArith Ascii.

Open Scope string_scope.
Open Scope list_scope.
Open Scope Z_scope.

(** ** Python values and the builtins the code applies to them *)

Inductive value :=
| VNone
| VInt (z : Z)
| VStr (s : string).

#[global] Instance value_eq_dec : EqDecision value.
Proof. solve_decision. Defined.

(** Truth value of an object in a condition ([if x], [not x]). *)
Definition truthy (v : value) : bool :=
  match v with
  | VNone => false
  | VInt z => negb (z =? 0)
  | VStr s => negb (String.eqb s "")
  end.

(** [d.get(k)]: the value stored under [k], [None] when [k] is absent. *)
Definition dict_get (d : gmap string value) (k : string) : value :=
  default VNone (d !! k).

(** [d.get(k, dflt)]. *)
Definition dict_get_default (d : gmap string value) (k : string) (dflt : value) : value :=
  default dflt (d !! k).

(** [k in d]. *)
Definition dict_in (k : string) (d : gmap string value) : bool :=
  bool_decide (is_Some (d !! k)).

(** ** Exceptions

    One constructor per class that the source raises or names in an
    [except] clause; each stands for the class and its subclasses.  The
    remaining constructors are the builtin errors that the source's
    subscripting and conversions raise, and [OtherException] for any other
    subclass of [Exception] a library may raise (OSError, ...). *)

Inductive exn_class :=
| redis_RedisError
| BaseSSHTunnelForwarderError
| paramiko_SSHException
| pymysql_Error
| psycopg2_Error
| ValueError
| ConnectionError
| KeyError
| TypeError
| AttributeError
| OtherException.

#[global] Instance exn_class_eq_dec : EqDecision exn_class.
Proof. solve_decision. Defined.

Record exn := Exn { exn_cls : exn_class; exn_msg : string }.

#[global] Instance exn_eq_dec : EqDecision exn.
Proof. solve_decision. Defined.

(** [except (C1, ..., Cn)]: does the clause catch [e]? *)
Definition isinstance (e : exn) (classes : list exn_class) : bool :=
  bool_decide (exn_cls e ∈ classes).

(** ** Calls into the client libraries *)

(** Objects created by the libraries (tunnels, connections, cursors, keys)
    are named by the position in the trace of the call that created them. *)
Definition obj := nat.

Definition rows := list (list (string * value)).

Inductive cursor_class := DefaultCursor | DictCursor.

Inductive call :=
| RSAKey_from_private_key_file (path password : value)
| SSHTunnelForwarder (ssh_host ssh_port ssh_username ssh_password : value)
    (ssh_pkey : option obj) (remote_host : value) (remote_port : Z)
| tunnel_start (t : obj)
| tunnel_local_bind_port (t : obj)
| tunnel_stop (t : obj)
| redis_Redis (host : value) (port db : Z) (password : value) (decode_responses : bool)
| redis_ping (r : obj)
| redis_close (r : obj)
| pymysql_connect (host port user password database charset : value)
    (cursorclass : cursor_class)
| psycopg2_connect (host : value) (port : Z) (user password dbname : value)
| conn_set_autocommit (c : obj) (b : bool)
| conn_cursor (c : obj)
| cursor_execute (cur : obj) (sql : string) (params : option (list value))
| cursor_fetchall (cur : obj)
| cursor_close (cur : obj)
| conn_commit (c : obj)
| conn_rollback (c : obj)
| conn_close (c : obj).

(** What a call returns when it does not raise. *)
Definition resp (c : call) : Type :=
  match c with
  | tunnel_local_bind_port _ => Z
  | redis_ping _ => bool
  | cursor_fetchall _ => rows
  | _ => unit
  end.

(** The libraries and the network behind them.  [reply] answers a call
    given the calls made before it; the other fields are the attributes the
    source reads from library objects, which do not raise. *)
Record World := {
  reply : list call -> forall c : call, exn + resp c;
  tunnel_is_active : list call -> obj -> bool;
  conn_open : list call -> obj -> bool;
  conn_closed : list call -> obj -> Z;
  cursor_rowcount : list call -> obj -> Z;
  cursor_lastrowid : list call -> obj -> Z;
}.

#[global] Instance cursor_class_eq_dec : EqDecision cursor_class.
Proof. solve_decision. Defined.

#[global] Instance call_eq_dec : EqDecision call.
Proof. solve_decision. Defined.

(** The answer of a library that is reached and finds nothing wrong. *)
Definition success (c : call) : resp c :=
  match c as c0 return resp c0 with
  | tunnel_local_bind_port _ => 40022
  | redis_ping _ => true
  | cursor_fetchall _ => []
  | _ => tt
  end.

(** A world given by its failures: [fails h c] is the exception raised by
    call [c] after history [h], if any; every other call succeeds.  The
    attributes follow the history: a tunnel is active from [start] to
    [stop], a connection is open until [close]. *)
Definition library (fails : list call -> call -> option exn) : World := {|
  reply := fun h c =>
    match fails h c with
    | Some e => inl e
    | None => inr (success c)
    end;
  tunnel_is_active := fun h t =>
    bool_decide (tunnel_start t ∈ h) && negb (bool_decide (tunnel_stop t ∈ h));
  conn_open := fun h c => negb (bool_decide (conn_close c ∈ h));
  conn_closed := fun h c => if bool_decide (conn_close c ∈ h) then 1 else 0;
  cursor_rowcount := fun _ _ => 1;
  cursor_lastrowid := fun _ _ => 7;
|}.

(** ** Logging *)

Inductive level := INFO | WARNING | ERROR.

(** A record of the module logger: level, the literal text of the message
    (interpolated fields left out; the statement text of the two
    [execute] handlers is kept, see [DBConnector.execute_error_msg]) and,
    for [logger.exception], the exception being handled. *)
Record log_record := Log { log_level : level; log_msg : string; log_exc : option exn }.

(** ** The method monad *)

Inductive result (A : Type) :=
| Ok (a : A)
| Raise (e : exn).
Arguments Ok {A} a.
Arguments Raise {A} e.

Record state (T : Type) := State {
  self : T;
  trace : list call;
  log : list log_record;
}.
Arguments State {T} _ _ _.
Arguments self {T} _.
Arguments trace {T} _.
Arguments log {T} _.

Definition M (T A : Type) : Type := state T -> result A * state T.

Definition ret {T A} (a : A) : M T A := fun st => (Ok a, st).

Definition bind {T A B} (m : M T A) (k : A -> M T B) : M T B :=
  fun st =>
    match m st with
    | (Ok a, st') => k a st'
    | (Raise e, st') => (Raise e, st')
    end.

Definition raise {T A} (e : exn) : M T A := fun st => (Raise e, st).

Notation "'do' x <- m ; k" := (bind m (fun x => k))
  (at level 10, x name, m at level 100, k at level 200,
   format "'[v' 'do'  x  <-  m ; '/' k ']'").

(** [try: m  except ...: handler]: the handler receives every exception;
    a clause that does not match re-raises it. *)
Definition try_except {T A} (m : M T A) (handler : exn -> M T A) : M T A :=
  fun st =>
    match m st with
    | (Ok a, st') => (Ok a, st')
    | (Raise e, st') => handler e st'
    end.

(** [try: m  finally: fin]: [fin] always runs; an exception of [fin]
    replaces the outcome of [m]. *)
Definition try_finally {T A} (m : M T A) (fin : M T unit) : M T A :=
  fun st =>
    match m st with
    | (r, st') =>
        match fin st' with
        | (Ok _, st'') => (r, st'')
        | (Raise e, st'') => (Raise e, st'')
        end
    end.

Definition get_self {T} : M T T := fun st => (Ok (self st), st).

Definition modify {T} (f : T -> T) : M T unit :=
  fun st => (Ok tt, State (f (self st)) (trace st) (log st)).

Definition logger {T} (l : level) (msg : string) (e : option exn) : M T unit :=
  fun st => (Ok tt, State (self st) (trace st) (log st ++ [Log l msg e])).

Definition logger_info {T} (msg : string) : M T unit := logger INFO msg None.
Definition logger_warning {T} (msg : string) : M T unit := logger WARNING msg None.
Definition logger_exception {T} (msg : string) (e : exn) : M T unit :=
  logger ERROR msg (Some e).

(** [d[k]]: [KeyError] when [k] is absent. *)
Definition dict_item {T} (d : gmap string value) (k : string) : M T value :=
  match d !! k with
  | Some v => ret v
  | None => raise (Exn KeyError k)
  end.

(** [x.attribute] where the field [x] of [self] may hold [None]:
    AttributeError on [None]. *)
Definition field {T} (f : T -> option obj) : M T obj :=
  fun st =>
    match f (self st) with
    | Some o => (Ok o, st)
    | None => (Raise (Exn AttributeError "'NoneType' object has no attribute"), st)
    end.

(** A method of a base class run on an object of a subclass: [get] and
    [set] give the part of the object the base class owns. *)
Definition zoom {T U A} (get : T -> U) (set : U -> T -> T) (m : M U A) : M T A :=
  fun st =>
    match m (State (get (self st)) (trace st) (log st)) with
    | (r, st') => (r, State (set (self st') (self st)) (trace st') (log st'))
    end.

(** The [with] statement over a context manager: [__exit__] receives the
    exception of the body, if any, and suppresses it only by returning a
    true value.  When [__enter__] raises, the body is not entered and
    [__exit__] is not called. *)
Definition with_ {T H} (enter : M T H) (exit : option exn -> M T value)
    (body : H -> M T unit) : M T unit :=
  fun st =>
    match enter st with
    | (Raise e, st1) => (Raise e, st1)
    | (Ok h, st1) =>
        match body h st1 with
        | (Ok _, st2) =>
            match exit None st2 with
            | (Ok _, st3) => (Ok tt, st3)
            | (Raise e', st3) => (Raise e', st3)
            end
        | (Raise e, st2) =>
            match exit (Some e) st2 with
            | (Ok v, st3) => if truthy v then (Ok tt, st3) else (Raise e, st3)
            | (Raise e', st3) => (Raise e', st3)
            end
        end
    end.

(** The interpreter's string builtins used by the source.  They belong to
    Python, not to the repository, and are taken as given; [str_int s] is
    [None] where [int(s)] raises ValueError. *)
Record Builtins := {
  str_lower : string -> string;
  str_strip : string -> string;
  str_int : string -> option Z;
}.

(** The builtins on ASCII text, for running the model on examples. *)
Definition ascii_lower_char (a : ascii) : ascii :=
  let n := nat_of_ascii a in
  if ((65 <=? n) && (n <=? 90))%nat then ascii_of_nat (n + 32) else a.

Fixpoint ascii_lower (s : string) : string :=
  match s with
  | EmptyString => EmptyString
  | String a s' => String (ascii_lower_char a) (ascii_lower s')
  end.

Definition ascii_space (a : ascii) : bool :=
  let n := nat_of_ascii a in
  (((9 <=? n) && (n <=? 13)) || ((28 <=? n) && (n <=? 32)))%nat.

Fixpoint ascii_lstrip (s : string) : string :=
  match s with
  | EmptyString => EmptyString
  | String a s' => if ascii_space a then ascii_lstrip s' else s
  end.

Definition ascii_strip (s : string) : string :=
  String.rev (ascii_lstrip (String.rev (ascii_lstrip s))).

Fixpoint ascii_digits (s : string) (acc : Z) : option Z :=
  match s with
  | EmptyString => Some acc
  | String a s' =>
      let n := nat_of_ascii a in
      if ((48 <=? n) && (n <=? 57))%nat
      then ascii_digits s' (10 * acc + Z.of_nat (n - 48))
      else None
  end.

Definition ascii_int (s : string) : option Z :=
  match ascii_strip s with
  | EmptyString => None
  | String "-" (String a r) => Z.opp <$> ascii_digits (String a r) 0
  | String "+" (String a r) => ascii_digits (String a r) 0
  | String a r => ascii_digits (String a r) 0
  end.

Definition ascii_py : Builtins := {|
  str_lower := ascii_lower;
  str_strip := ascii_strip;
  str_int := ascii_int;
|}.

(** [int(v)]. *)
Definition py_int {T} (py : Builtins) (v : value) : M T Z :=
  match v with
  | VInt z => ret z
  | VStr s =>
      match str_int py s with
      | Some z => ret z
      | None => raise (Exn ValueError "invalid literal for int() with base 10")
      end
  | VNone => raise (Exn TypeError "int() argument must be a string or a number")
  end.

(** [v.lower()]. *)
Definition py_lower {T} (py : Builtins) (v : value) : M T string :=
  match v with
  | VStr s => ret (str_lower py s)
  | _ => raise (Exn AttributeError "object has no attribute 'lower'")
  end.

Section World.
Context (W : World).

(** A library call: ask the world, record the call. *)
Definition ext {T} (c : call) : M T (resp c) :=
  fun st =>
    let st' := State (self st) (trace st ++ [c]) (log st) in
    match reply W (trace st) c with
    | inr a => (Ok a, st')
    | inl e => (Raise e, st')
    end.

(** A call that creates an object: the object is named by the position
    of the call in the trace. *)
Definition new {T} (c : call) : M T obj :=
  fun st =>
    let st' := State (self st) (trace st ++ [c]) (log st) in
    match reply W (trace st) c with
    | inr _ => (Ok (length (trace st)), st')
    | inl e => (Raise e, st')
    end.

(** An attribute read: a function of the history, no call is recorded. *)
Definition attr {T A} (f : World -> list call -> obj -> A) (o : obj) : M T A :=
  fun st => (Ok (f W (trace st) o), st).

(** [with EXPR as x: body] for a cursor: [__enter__] returns the cursor
    itself and [__exit__] closes it and returns [None], so the exception
    of the body, if any, goes on. *)
Definition with_cursor {T A} (c : obj) (body : obj -> M T A) : M T A :=
  do cur <- new (conn_cursor c);
  try_finally (body cur) (ext (cursor_close cur)).

End World.

(** ** class SSHTunnelManager *)

Module SSHTunnelManager.

Record t := Build {
  ssh_config : gmap string value;
  tunnel : option obj;
}.

Definition set_tunnel (v : option obj) (s : t) : t :=
  Build (ssh_config s) v.

Definition __init__ (ssh_config : gmap string value) : t :=
  Build ssh_config None.

Section Methods.
Context (W : World).

Definition _setup_ssh_tunnel (remote_host : value) (remote_port : Z)
  : M t (value * Z) :=
  do s <- get_self;
  do pkey <-
    (if truthy (dict_get (ssh_config s) "ssh_pkey_path") then
       do path <- dict_item (ssh_config s) "ssh_pkey_path";
       do k <- new W (RSAKey_from_private_key_file path
                        (dict_get (ssh_config s) "ssh_pkey_password"));
       ret (Some k)
     else ret None);
  do ssh_host <- dict_item (ssh_config s) "ssh_host";
  do ssh_port <- dict_item (ssh_config s) "ssh_port";
  do ssh_username <- dict_item (ssh_config s) "ssh_username";
  do ssh_password <- dict_item (ssh_config s) "ssh_password";
  do tun <- new W (SSHTunnelForwarder ssh_host ssh_port ssh_username ssh_password
                     pkey remote_host remote_port);
  do _ <- modify (set_tunnel (Some tun));
  do _ <- ext W (tunnel_start tun);
  do _ <- ext W (tunnel_local_bind_port tun);
  do _ <- logger_info "SSH隧道已建立，本地端口: ";
  do local_bind_port <- (ext W (tunnel_local_bind_port tun) : M t Z);
  ret (VStr "127.0.0.1", local_bind_port).

Definition _close_ssh_tunnel : M t unit :=
  do s <- get_self;
  match tunnel s with
  | Some tun =>
      do is_active <- attr W tunnel_is_active tun;
      if is_active then
        do _ <- try_except
                  (do _ <- ext W (tunnel_stop tun);
                   logger_info "SSH隧道已关闭")
                  (fun e => logger_exception "关闭SSH隧道失败: " e);
        modify (set_tunnel None)
      else ret tt
  | None => ret tt
  end.

End Methods.

End SSHTunnelManager.

(** ** class RedisConnector(SSHTunnelManager) *)

Module RedisConnector.

Record redis_config_t := BuildConfig {
  host : value;
  port : Z;
  db : Z;
  password : value;
  decode_responses : bool;
}.

Record t := Build {
  base : SSHTunnelManager.t;
  use_ssh : bool;
  redis_config : redis_config_t;
  redis_conn : option obj;
  is_connected : bool;
}.

Definition set_base (v : SSHTunnelManager.t) (s : t) : t :=
  Build v (use_ssh s) (redis_config s) (redis_conn s) (is_connected s).
Definition set_redis_config (v : redis_config_t) (s : t) : t :=
  Build (base s) (use_ssh s) v (redis_conn s) (is_connected s).
Definition set_redis_conn (v : option obj) (s : t) : t :=
  Build (base s) (use_ssh s) (redis_config s) v (is_connected s).
Definition set_is_connected (v : bool) (s : t) : t :=
  Build (base s) (use_ssh s) (redis_config s) (redis_conn s) v.

(** [redis_config.update({'host': h, 'port': p})]. *)
Definition update_host_port (h : value) (p : Z) (c : redis_config_t) : redis_config_t :=
  BuildConfig h p (db c) (password c) (decode_responses c).

Definition handled : list exn_class :=
  [redis_RedisError; BaseSSHTunnelForwarderError; paramiko_SSHException].

Section Methods.
Context (W : World) (py : Builtins).

Definition __init__ (config : gmap string value) (use_ssh : bool) : M unit t :=
  if use_ssh && negb (forallb (fun k => dict_in k config) ["ssh_host"; "ssh_username"])
  then raise (Exn ValueError "SSH模式必须提供 ssh_host 和 ssh_username")
  else if negb (truthy (dict_get config "redis_host"))
  then raise (Exn ValueError "必须提供redis_host配置")
  else
    do host <- dict_item config "redis_host";
    do port <- py_int py (dict_get_default config "redis_port" (VInt 6379));
    do db <- py_int py (dict_get_default config "redis_db" (VInt 0));
    ret (Build (SSHTunnelManager.__init__ config) use_ssh
           (BuildConfig host port db (dict_get config "redis_password") true)
           None false).

Definition disconnect : M t unit :=
  do s <- get_self;
  do _ <-
    match redis_conn s with
    | Some r =>
        do _ <- try_except
                  (do _ <- ext W (redis_close r);
                   logger_info "Redis连接已关闭")
                  (fun e => logger_exception "关闭Redis连接失败: " e);
        modify (set_redis_conn None)
    | None => ret tt
    end;
  do _ <-
    (if use_ssh s
     then zoom base set_base (SSHTunnelManager._close_ssh_tunnel W)
     else ret tt);
  modify (set_is_connected false).

(** The [try] suite of [connect], in its three stages: the address
    (through a tunnel when [use_ssh]), the client, the liveness probe. *)
Definition connect_address : M t unit :=
  do s <- get_self;
  if use_ssh s then
    do local <- zoom base set_base
                  (SSHTunnelManager._setup_ssh_tunnel W
                     (host (redis_config s)) (port (redis_config s)));
    modify (fun s => set_redis_config
                       (update_host_port (fst local) (snd local) (redis_config s)) s)
  else ret tt.

Definition connect_client : M t unit :=
  do s <- get_self;
  do r <- new W (redis_Redis (host (redis_config s)) (port (redis_config s))
                   (db (redis_config s)) (password (redis_config s))
                   (decode_responses (redis_config s)));
  modify (set_redis_conn (Some r)).

Definition connect_probe : M t unit :=
  do r <- field redis_conn;
  do pong <- (ext W (redis_ping r) : M t bool);
  if negb pong then raise (Exn ConnectionError "Redis连接测试失败")
  else ret tt.

Definition connect_try : M t unit :=
  do _ <- connect_address;
  do _ <- connect_client;
  do _ <- connect_probe;
  do _ <- modify (set_is_connected true);
  logger_info "Redis连接成功".

(** The [except] clause of [connect]. *)
Definition connect_except (e : exn) : M t unit :=
  if isinstance e handled then
    do _ <- logger_exception "连接失败: " e;
    do _ <- disconnect;
    raise e
  else raise e.

Definition connect : M t unit :=
  do s <- get_self;
  if is_connected s then logger_warning "Redis连接已存在"
  else try_except connect_try connect_except.

Definition __enter__ : M t (option obj) :=
  do _ <- connect;
  do s <- get_self;
  ret (redis_conn s).

Definition __exit__ (exc : option exn) : M t value :=
  do _ <- disconnect;
  ret VNone.

End Methods.

End RedisConnector.

(** ** class DBConnector(SSHTunnelManager) *)

Module DBConnector.

Record db_config_t := BuildConfig {
  type : string;
  host : value;
  port : Z;
  user : value;
  password : value;
  name : value;
}.

Record t := Build {
  base : SSHTunnelManager.t;
  use_ssh : bool;
  db_config : db_config_t;
  conn : option obj;
  is_connected : bool;
}.

Definition set_base (v : SSHTunnelManager.t) (s : t) : t :=
  Build v (use_ssh s) (db_config s) (conn s) (is_connected s).
Definition set_conn (v : option obj) (s : t) : t :=
  Build (base s) (use_ssh s) (db_config s) v (is_connected s).
Definition set_is_connected (v : bool) (s : t) : t :=
  Build (base s) (use_ssh s) (db_config s) (conn s) v.
Definition set_tunnel (v : option obj) (s : t) : t :=
  set_base (SSHTunnelManager.set_tunnel v (base s)) s.

Definition required : list string :=
  ["db_type"; "db_host"; "db_port"; "db_user"; "db_name"].

(** The classes named by the [except] clause of [connect]. *)
Definition handled_connect : list exn_class :=
  [pymysql_Error; psycopg2_Error; ValueError].

(** The classes named by the [except] clauses of [execute_query] and
    [execute_update]. *)
Definition handled_execute : list exn_class :=
  [pymysql_Error; psycopg2_Error].

(** The object a [with DBConnector(...) as db] block receives: the
    connector itself, which is the state the block runs on. *)
Inductive self_ref := this.

Section Methods.
Context (W : World) (py : Builtins).

Definition __init__ (config : gmap string value) (use_ssh : bool) : M unit t :=
  if existsb (fun field => negb (dict_in field config)) required
  then raise (Exn ValueError "缺少必要配置项: ")
  else if use_ssh && negb (forallb (fun k => dict_in k config) ["ssh_host"; "ssh_username"])
  then raise (Exn ValueError "SSH模式必须提供 ssh_host 和 ssh_username")
  else
    do db_type <- dict_item config "db_type";
    do type <- py_lower py db_type;
    do host <- dict_item config "db_host";
    do db_port <- dict_item config "db_port";
    do port <- py_int py db_port;
    do user <- dict_item config "db_user";
    do name <- dict_item config "db_name";
    ret (Build (SSHTunnelManager.__init__ config) use_ssh
           (BuildConfig type host port user (dict_get config "db_password") name)
           None false).

Definition disconnect : M t unit :=
  do s <- get_self;
  do _ <-
    match conn s with
    | Some c =>
        do _ <- try_except
                  (do _ <-
                     (if String.eqb (type (db_config s)) "mysql" then
                        do open <- attr W conn_open c;
                        if open then ext W (conn_close c) else ret tt
                      else if String.eqb (type (db_config s)) "postgresql" then
                        do closed <- attr W conn_closed c;
                        if closed =? 0 then ext W (conn_close c) else ret tt
                      else ret tt);
                   logger_info "数据库连接已关闭")
                  (fun e => logger_exception "关闭数据库连接失败: " e);
        modify (set_conn None)
    | None => ret tt
    end;
  do s <- get_self;
  do _ <-
    match SSHTunnelManager.tunnel (base s) with
    | Some tun =>
        do is_active <- attr W tunnel_is_active tun;
        if is_active then
          do _ <- try_except
                    (do _ <- ext W (tunnel_stop tun);
                     logger_info "SSH隧道已关闭")
                    (fun e => logger_exception "关闭SSH隧道失败: " e);
          modify (set_tunnel None)
        else ret tt
    | None => ret tt
    end;
  modify (set_is_connected false).

(** The [try] suite of [connect], in its three stages: the address
    (through a tunnel when [use_ssh]), the backend connection chosen
    by [db_config['type']], the liveness probe. *)
Definition connect_address : M t (value * Z) :=
  do s <- get_self;
  if use_ssh s then
    zoom base set_base
      (SSHTunnelManager._setup_ssh_tunnel W
         (host (db_config s)) (port (db_config s)))
  else ret (host (db_config s), port (db_config s)).

Definition connect_backend (local : value * Z) : M t unit :=
  do s <- get_self;
  if String.eqb (type (db_config s)) "mysql" then
    do c <- new W (pymysql_connect (fst local) (VInt (snd local))
                     (user (db_config s)) (password (db_config s))
                     (name (db_config s)) (VStr "utf8mb4") DictCursor);
    modify (set_conn (Some c))
  else if String.eqb (type (db_config s)) "postgresql" then
    do c <- new W (psycopg2_connect (fst local) (snd local)
                     (user (db_config s)) (password (db_config s))
                     (name (db_config s)));
    do _ <- modify (set_conn (Some c));
    ext W (conn_set_autocommit c false)
  else raise (Exn ValueError "不支持的数据库类型: ").

Definition connect_probe : M t unit :=
  do c <- field conn;
  with_cursor W c
    (fun cursor => ext W (cursor_execute cursor "SELECT 1" None)).

Definition connect_try : M t unit :=
  do local <- connect_address;
  do _ <- connect_backend local;
  do _ <- connect_probe;
  do _ <- modify (set_is_connected true);
  logger_info "数据库连接成功".

(** The [except] clause of [connect]. *)
Definition connect_except (e : exn) : M t unit :=
  if isinstance e handled_connect then
    do _ <- logger_exception "连接失败: " e;
    do _ <- disconnect;
    raise e
  else raise e.

Definition connect : M t unit :=
  do s <- get_self;
  if is_connected s then logger_warning "数据库连接已存在"
  else try_except connect_try connect_except.

(** [params or ()]. *)
Definition params_or_empty (params : option (list value)) : option (list value) :=
  Some (default [] params).

(** The message of the [except] clause of [execute_query] and
    [execute_update],
    [f"<head>{type(e).__name__}: {str(e)}\nSQL: {sql}"]: the literal head,
    then, after a line break, the literal [SQL: ] and the statement text.
    The part computed from the exception is left out of the text; the
    exception is in the record itself. *)
Definition execute_error_msg (head sql : string) : string :=
  head +:+ String "010" "SQL: " +:+ sql.

(** The [except] clause shared by [execute_query] and [execute_update]. *)
Definition on_execute_error {A} (msg : string) (e : exn) : M t A :=
  if isinstance e handled_execute then
    do _ <- logger_exception msg e;
    do s <- get_self;
    do _ <-
      match conn s with
      | Some c => ext W (conn_rollback c)
      | None => ret tt
      end;
    raise e
  else raise e.

(** The [try] suites of [execute_query] and [execute_update]. *)
Definition execute_query_try (sql : string) (params : option (list value)) : M t rows :=
  do c <- field conn;
  with_cursor W c
    (fun cursor =>
       do _ <- ext W (cursor_execute cursor sql (params_or_empty params));
       (ext W (cursor_fetchall cursor) : M t rows)).

Definition execute_update_try (sql : string) (params : option (list value)) : M t Z :=
  do c <- field conn;
  with_cursor W c
    (fun cursor =>
       do _ <- ext W (cursor_execute cursor sql (params_or_empty params));
       do row_count <- attr W cursor_rowcount cursor;
       do c <- field conn;
       do _ <- ext W (conn_commit c);
       ret row_count).

Definition execute_query (sql : string) (params : option (list value)) : M t rows :=
  do s <- get_self;
  if negb (is_connected s) || negb (bool_decide (is_Some (conn s)))
  then raise (Exn ConnectionError "数据库未连接")
  else try_except (execute_query_try sql params)
                  (on_execute_error (execute_error_msg "查询执行失败: " sql)).

Definition execute_update (sql : string) (params : option (list value)) : M t Z :=
  do s <- get_self;
  if negb (is_connected s) || negb (bool_decide (is_Some (conn s)))
  then raise (Exn ConnectionError "数据库未连接")
  else try_except (execute_update_try sql params)
                  (on_execute_error (execute_error_msg "更新执行失败: " sql)).

Definition __enter__ : M t self_ref :=
  do _ <- connect;
  ret this.

Definition __exit__ (exc : option exn) : M t value :=
  do _ <- disconnect;
  ret VNone.

(** The [connection] property. *)
Definition connection : M t (option obj) :=
  do s <- get_self;
  ret (conn s).

End Methods.

End DBConnector.

Arguments DBConnector.execute_error_msg : simpl never.

(** ** class MySQL (pymysql/database.py) *)

Module MySQL.

Record t := Build {
  host : value;
  user : value;
  password : value;
  database : value;
  port : value;
  charset : value;
  conn : option obj;
  cursor : option obj;
}.

Definition set_conn (v : option obj) (s : t) : t :=
  Build (host s) (user s) (password s) (database s) (port s) (charset s) v (cursor s).
Definition set_cursor (v : option obj) (s : t) : t :=
  Build (host s) (user s) (password s) (database s) (port s) (charset s) (conn s) v.

(** What [execute] returns: [cursor.lastrowid] or the rows of
    [cursor.fetchall()]. *)
Inductive execute_result :=
| lastrowid (id : Z)
| fetched (r : rows).

Definition __init__ (host user password database port charset : value) : t :=
  Build host user password database port charset None None.

Section Methods.
Context (W : World) (py : Builtins).

Definition connect : M t unit :=
  do s <- get_self;
  do c <- new W (pymysql_connect (host s) (port s) (user s) (password s)
                   (database s) (charset s) DefaultCursor);
  do _ <- modify (set_conn (Some c));
  do c <- field conn;
  do cur <- new W (conn_cursor c);
  modify (set_cursor (Some cur)).

Definition close : M t unit :=
  do s <- get_self;
  do _ <-
    match cursor s with
    | Some cur => ext W (cursor_close cur)
    | None => ret tt
    end;
  do s <- get_self;
  match conn s with
  | Some c => ext W (conn_close c)
  | None => ret tt
  end.

(** [sql.strip().lower().startswith('insert into')]. *)
Definition is_insert (sql : string) : bool :=
  String.prefix "insert into" (str_lower py (str_strip py sql)).

(** The [try] suite, the [except] clause and the whole of [execute]. *)
Definition execute_try (sql : string) (params : option (list value))
  : M t execute_result :=
  do _ <- connect;
  do cur <- field cursor;
  do _ <- ext W (cursor_execute cur sql params);
  do c <- field conn;
  do _ <- ext W (conn_commit c);
  if is_insert sql then
    do cur <- field cursor;
    do id <- attr W cursor_lastrowid cur;
    ret (lastrowid id)
  else
    do cur <- field cursor;
    do r <- (ext W (cursor_fetchall cur) : M t rows);
    ret (fetched r).

Definition execute_except (e : exn) : M t execute_result :=
  do c <- field conn;
  do _ <- ext W (conn_rollback c);
  raise e.

Definition execute (sql : string) (params : option (list value)) : M t execute_result :=
  try_finally (try_except (execute_try sql params) execute_except) close.

(** [fetchall]: [connect()] has already made a cursor; a second one, made
    with [cursor=DictCursor], replaces it in [self.cursor].  The cursor
    class selects the format of the rows only and is not part of the
    recorded call.  The [except] clause re-raises what it caught. *)
Definition fetchall_try (sql : string) (params : option (list value)) : M t rows :=
  do _ <- connect;
  do c <- field conn;
  do cur <- new W (conn_cursor c);
  do _ <- modify (set_cursor (Some cur));
  do cur <- field cursor;
  do _ <- ext W (cursor_execute cur sql params);
  do cur <- field cursor;
  (ext W (cursor_fetchall cur) : M t rows).

Definition fetchall (sql : string) (params : option (list value)) : M t rows :=
  try_finally (try_except (fetchall_try sql params) (fun e => raise e)) close.

End Methods.

End MySQL.


(** ** pymysql/__init__.py *)

Module Package.

(** [MySQL] objects are handed out by reference: [heap] holds the objects
    made so far, [thread_local] the reference kept under the attribute
    [mysql_connection] of [threading.local()], per thread.  The arguments
    of the constructor are those of the source (credentials apart). *)
Record t := Build {
  heap : list MySQL.t;
  thread_local : gmap nat nat;
}.

Definition new_connection : MySQL.t :=
  MySQL.__init__ (VStr "localhost") (VStr "root") (VStr "secret")
    (VStr "stock_daily_data") (VInt 3306) (VStr "utf8").

(** The module once imported: the module-level [mysql] object exists, no
    thread has a connection of its own. *)
Definition imported : t := Build [new_connection] ∅.

(** [get_mysql_connection()] called by thread [thread]. *)
Definition get_mysql_connection (thread : nat) (s : t) : nat * t :=
  match thread_local s !! thread with
  | Some r => (r, s)
  | None =>
      let r := length (heap s) in
      (r, Build (heap s ++ [new_connection]) (<[thread := r]> (thread_local s)))
  end.

End Package.

(** ** Observations on traces

    The calls a teardown is expected to make, as functions of what the
    libraries report: they do not depend on whether a close succeeds. *)

(** Stopping a tunnel: only a tunnel that exists and is active. *)
Definition stop_calls (W : World) (h : list call) (tun : option obj) : list call :=
  match tun with
  | Some t => if tunnel_is_active W h t then [tunnel_stop t] else []
  | None => []
  end.

(** Closing the SQL connection: only a connection that exists and that its
    library reports open. *)
Definition db_close_calls (W : World) (h : list call) (s : DBConnector.t) : list call :=
  match DBConnector.conn s with
  | Some c =>
      if String.eqb (DBConnector.type (DBConnector.db_config s)) "mysql" then
        if conn_open W h c then [conn_close c] else []
      else if String.eqb (DBConnector.type (DBConnector.db_config s)) "postgresql" then
        if conn_closed W h c =? 0 then [conn_close c] else []
      else []
  | None => []
  end.

(** Closing the cache client: whenever one exists. *)
Definition redis_close_calls (s : RedisConnector.t) : list call :=
  match RedisConnector.redis_conn s with
  | Some r => [redis_close r]
  | None => []
  end.

(** The address a backend connect is made to. *)
Definition backend_address (c : call) : option (value * value) :=
  match c with
  | pymysql_connect h p _ _ _ _ _ => Some (h, p)
  | psycopg2_connect h p _ _ _ => Some (h, VInt p)
  | redis_Redis h p _ _ _ => Some (h, VInt p)
  | _ => None
  end.

(** The remote end a tunnel is asked to forward to. *)
Definition forwarder_remote (c : call) : option (value * Z) :=
  match c with
  | SSHTunnelForwarder _ _ _ _ _ h p => Some (h, p)
  | _ => None
  end.

(** How many calls of a trace satisfy [p]. *)
Definition count (p : call -> bool) (h : list call) : nat :=
  length (filter (fun c => p c = true) h).

Definition is_tunnel_start (c : call) : bool :=
  match c with tunnel_start _ => true | _ => false end.

Definition is_backend_connect (c : call) : bool :=
  match c with
  | pymysql_connect _ _ _ _ _ _ _ | psycopg2_connect _ _ _ _ _ | redis_Redis _ _ _ _ _ => true
  | _ => false
  end.

Definition is_probe (c : call) : bool :=
  match c with
  | cursor_execute _ sql None => String.eqb sql "SELECT 1"
  | redis_ping _ => true
  | _ => false
  end.


(** ** Sessions and worlds for examples *)

(** A gateway database reached directly, in the shape of the module's own
    [gw_config]. *)
Definition gw_config : gmap string value :=
  <["db_type" := VStr "MySQL"]> (<["db_host" := VStr "10.0.0.5"]>
  (<["db_port" := VInt 3306]> (<["db_user" := VStr "root"]>
  (<["db_password" := VStr ""]> (<["db_name" := VStr "gateway"]> ∅))))).

Definition gw_connector : DBConnector.t :=
  DBConnector.Build (SSHTunnelManager.__init__ gw_config) false
    (DBConnector.BuildConfig "mysql" (VStr "10.0.0.5") 3306 (VStr "root") (VStr "")
       (VStr "gateway"))
    None false.

(** A cache reached through a bastion host with password authentication. *)
Definition rank_config : gmap string value :=
  <["redis_host" := VStr "10.0.0.9"]> (<["redis_port" := VStr "6379"]>
  (<["ssh_host" := VStr "bastion"]> (<["ssh_port" := VInt 22]>
  (<["ssh_username" := VStr "deploy"]> (<["ssh_password" := VStr "secret"]> ∅))))).

Definition rank_connector : RedisConnector.t :=
  RedisConnector.Build (SSHTunnelManager.__init__ rank_config) true
    (RedisConnector.BuildConfig (VStr "10.0.0.9") 6379 0 VNone true)
    None false.

(** The module-level [mysql] object of the pymysql package. *)
Definition stock_db : MySQL.t :=
  MySQL.__init__ (VStr "localhost") (VStr "root") (VStr "secret")
    (VStr "stock_daily_data") (VInt 3306) (VStr "utf8").

(** A fresh object before any call. *)
Definition fresh {T} (s : T) : state T := State s [] [].

(** Nothing fails. *)
Definition calm : World := library (fun _ _ => None).

(** The database server refuses the connection. *)
Definition refused : exn := Exn pymysql_Error "Can't connect to MySQL server".
Definition refusing : World :=
  library (fun _ c =>
    match c with
    | pymysql_connect _ _ _ _ _ _ _ => Some refused
    | _ => None
    end).

(** The server accepts the connection and drops it before the probe. *)
Definition gone_away : exn := Exn pymysql_Error "MySQL server has gone away".
Definition probe_failing : World :=
  library (fun _ c =>
    match c with
    | cursor_execute _ sql _ => if String.eqb sql "SELECT 1" then Some gone_away else None
    | _ => None
    end).

(** The cache answers the probe with an error. *)
Definition loading : exn := Exn redis_RedisError "Redis is loading the dataset in memory".
Definition ping_failing : World :=
  library (fun _ c =>
    match c with
    | redis_ping _ => Some loading
    | _ => None
    end).

(** A statement fails and the rollback that follows fails too. *)
Definition deadlock : exn := Exn pymysql_Error "Deadlock found when trying to get lock".
Definition rollback_failing : World :=
  library (fun _ c =>
    match c with
    | cursor_execute _ sql _ => if String.eqb sql "SELECT 1" then None else Some deadlock
    | conn_rollback _ => Some gone_away
    | _ => None
    end).

(** Closing a connection or stopping a tunnel fails. *)
Definition lost : exn := Exn pymysql_Error "Lost connection to MySQL server during query".
Definition close_failing : World :=
  library (fun _ c =>
    match c with
    | conn_close _ | redis_close _ | tunnel_stop _ => Some lost
    | _ => None
    end).

(** Closing a cursor fails. *)
Definition cursor_close_failing : World :=
  library (fun _ c =>
    match c with
    | cursor_close _ => Some lost
    | _ => None
    end).

(** The gateway database reached through the bastion host. *)
Definition gw_tunnel_config : gmap string value :=
  <["ssh_host" := VStr "bastion"]> (<["ssh_port" := VInt 22]>
  (<["ssh_username" := VStr "deploy"]> (<["ssh_password" := VStr "secret"]> gw_config))).

Definition gw_tunnel_connector : DBConnector.t :=
  DBConnector.Build (SSHTunnelManager.__init__ gw_tunnel_config) true
    (DBConnector.db_config gw_connector) None false.

(** The gateway accepts the SSH session and the forward cannot be opened. *)
Definition forward_failed : exn :=
  Exn BaseSSHTunnelForwarderError "An error occurred while opening tunnels.".
Definition forward_failing : World :=
  library (fun _ c =>
    match c with
    | tunnel_start _ => Some forward_failed
    | _ => None
    end).

(** The cache answers the probe with something other than PONG: [ping()]
    returns [False]. *)
Definition not_pong : World := {|
  reply := fun h c =>
    match c as c0 return exn + resp c0 with
    | redis_ping _ => inr false
    | c0 => reply calm h c0
    end;
  tunnel_is_active := tunnel_is_active calm;
  conn_open := conn_open calm;
  conn_closed := conn_closed calm;
  cursor_rowcount := cursor_rowcount calm;
  cursor_lastrowid := cursor_lastrowid calm;
|}.

(** A statement fails; rolling back works. *)
Definition deadlocking : World :=
  library (fun _ c =>
    match c with
    | cursor_execute _ sql _ => if String.eqb sql "SELECT 1" then None else Some deadlock
    | _ => None
    end).

(** A gateway configuration that names a backend the module does not know. *)
Definition oracle_connector : DBConnector.t :=
  DBConnector.Build (SSHTunnelManager.__init__ gw_config) false
    (DBConnector.BuildConfig "oracle" (VStr "10.0.0.5") 1521 (VStr "root") (VStr "")
       (VStr "gateway"))
    None false.

(** The same gateway on PostgreSQL. *)
Definition pg_connector : DBConnector.t :=
  DBConnector.Build (SSHTunnelManager.__init__ gw_config) false
    (DBConnector.BuildConfig "postgresql" (VStr "10.0.0.5") 5432 (VStr "root") (VStr "")
       (VStr "gateway"))
    None false.

(** Tunneling requested with a configuration that passes the constructor
    and has no [ssh_port]. *)
Definition portless_connector : DBConnector.t :=
  DBConnector.Build (SSHTunnelManager.__init__ (delete "ssh_port" gw_tunnel_config)) true
    (DBConnector.db_config gw_connector) None false.

(** The cache reached directly. *)
Definition direct_rank_connector : RedisConnector.t :=
  RedisConnector.Build (SSHTunnelManager.__init__ rank_config) false
    (RedisConnector.BuildConfig (VStr "10.0.0.9") 6379 0 VNone true)
    None false.

(** A block body that fails on its first statement. *)
Definition failing_body : option obj -> M RedisConnector.t unit :=
  fun _ => raise (Exn KeyError "rank").

(** The gateway session once [connect()] has returned in world [W]. *)
Definition gw_connected (W : World) : state DBConnector.t :=
  snd (DBConnector.connect W (fresh gw_connector)).

(** * Properties *)

(** ** Symbolic execution of methods *)

Ltac unfold_monad :=
  unfold with_cursor, dict_item, logger_info, logger_warning, logger_exception in *;
  unfold bind, ret, raise, try_except, try_finally, get_self, modify,
    logger, ext, new, attr, field, zoom in *.

(** One step: case analysis on the first condition or library answer that
    the computation in the goal is waiting for. *)
Ltac case_step :=
  match goal with
  | |- context [match ?x with _ => _ end] =>
      lazymatch x with
      | context [match _ with _ => _ end] => fail
      | _ => destruct x eqn:?
      end
  end; simpl in *; rewrite ?app_nil_r in *.

Ltac run := repeat case_step.

(** Symbolic execution under the assumption that the run ends well: the
    goal is an implication from the outcome of the run. *)
Ltac run_to_outcome := repeat (case_step; try (intros; discriminate)).

(** Two recorded answers to the same call after the same history agree. *)
Ltac same_reply :=
  repeat match goal with
  | H1 : reply ?W ?h ?c = _, H2 : reply ?W ?h ?c = _ |- _ =>
      rewrite H1 in H2; simplify_eq
  end.

(** Conditions already decided on the path. *)
Ltac use_facts :=
  repeat match goal with
  | H : ?x = _ |- context [if ?x then _ else _] => rewrite H
  end.

(** An error of a close is in the log. *)
Ltac logged :=
  intros ? ? [?|[]] ?; simplify_eq; apply in_app_iff; simpl; same_reply; eauto 10.

(** ** Teardown *)

Section Teardown.
Context (W : World).

Lemma db_disconnect_spec (st : state DBConnector.t) :
  let closes := db_close_calls W (trace st) (self st) in
  let stops := stop_calls W (trace st ++ closes)
                 (SSHTunnelManager.tunnel (DBConnector.base (self st))) in
  exists st',
    DBConnector.disconnect W st = (Ok tt, st') /\
    DBConnector.conn (self st') = None /\
    DBConnector.is_connected (self st') = false /\
    trace st' = trace st ++ closes ++ stops /\
    stop_calls W (trace st') (SSHTunnelManager.tunnel (DBConnector.base (self st'))) = [] /\
    (forall c e, In (conn_close c) closes ->
       reply W (trace st) (conn_close c) = inl e ->
       In (Log ERROR "关闭数据库连接失败: " (Some e)) (log st')) /\
    (forall t e, In (tunnel_stop t) stops ->
       reply W (trace st ++ closes) (tunnel_stop t) = inl e ->
       In (Log ERROR "关闭SSH隧道失败: " (Some e)) (log st')).
Proof.
  destruct st as [[[cfg tun] ssh dbc c ic] h l].
  unfold DBConnector.disconnect, db_close_calls, stop_calls. unfold_monad. simpl.
  destruct c as [c|]; destruct tun as [tun|]; simpl.
  all: run.
  all: eexists; split; [reflexivity|]; simpl; rewrite <- ?app_assoc, ?app_nil_r; simpl.
  all: repeat split; try reflexivity; try congruence; use_facts; try reflexivity.
  all: try logged.
  all: intros ? ? [] ?.
Qed.

Lemma redis_disconnect_spec (st : state RedisConnector.t) :
  let closes := redis_close_calls (self st) in
  let tun := SSHTunnelManager.tunnel (RedisConnector.base (self st)) in
  let stops := if RedisConnector.use_ssh (self st)
               then stop_calls W (trace st ++ closes) tun else [] in
  exists st',
    RedisConnector.disconnect W st = (Ok tt, st') /\
    RedisConnector.redis_conn (self st') = None /\
    RedisConnector.is_connected (self st') = false /\
    RedisConnector.use_ssh (self st') = RedisConnector.use_ssh (self st) /\
    trace st' = trace st ++ closes ++ stops /\
    (if RedisConnector.use_ssh (self st)
     then stop_calls W (trace st')
            (SSHTunnelManager.tunnel (RedisConnector.base (self st'))) = []
     else SSHTunnelManager.tunnel (RedisConnector.base (self st')) = tun) /\
    (forall r e, In (redis_close r) closes ->
       reply W (trace st) (redis_close r) = inl e ->
       In (Log ERROR "关闭Redis连接失败: " (Some e)) (log st')) /\
    (forall t e, In (tunnel_stop t) stops ->
       reply W (trace st ++ closes) (tunnel_stop t) = inl e ->
       In (Log ERROR "关闭SSH隧道失败: " (Some e)) (log st')).
Proof.
  destruct st as [[[cfg tun] ssh rc r ic] h l].
  unfold RedisConnector.disconnect, SSHTunnelManager._close_ssh_tunnel,
    redis_close_calls, stop_calls.
  unfold_monad. simpl.
  destruct r as [r|]; destruct ssh; destruct tun as [tun|]; simpl.
  all: run.
  all: eexists; split; [reflexivity|]; simpl; rewrite <- ?app_assoc, ?app_nil_r; simpl.
  all: repeat split; try reflexivity; try congruence; use_facts; try reflexivity.
  all: try logged.
  all: intros ? ? [] ?.
Qed.

End Teardown.

(** ** A session that is already torn down *)

Section Settled.
Context (W : World).

Lemma db_disconnect_settled (st : state DBConnector.t) :
  DBConnector.conn (self st) = None ->
  DBConnector.is_connected (self st) = false ->
  stop_calls W (trace st) (SSHTunnelManager.tunnel (DBConnector.base (self st))) = [] ->
  DBConnector.disconnect W st = (Ok tt, st).
Proof.
  destruct st as [[[cfg tun] ssh dbc c ic] h l]. simpl.
  intros -> -> Hstop.
  unfold DBConnector.disconnect. unfold_monad. simpl.
  destruct tun as [tun|]; simpl in *; [|reflexivity].
  destruct (tunnel_is_active W h tun); [discriminate|reflexivity].
Qed.

Lemma redis_disconnect_settled (st : state RedisConnector.t) :
  RedisConnector.redis_conn (self st) = None ->
  RedisConnector.is_connected (self st) = false ->
  (RedisConnector.use_ssh (self st) = true ->
   stop_calls W (trace st) (SSHTunnelManager.tunnel (RedisConnector.base (self st))) = []) ->
  RedisConnector.disconnect W st = (Ok tt, st).
Proof.
  destruct st as [[[cfg tun] ssh rc r ic] h l]. simpl.
  intros -> -> Hstop.
  unfold RedisConnector.disconnect, SSHTunnelManager._close_ssh_tunnel.
  unfold_monad. simpl.
  destruct ssh; [|reflexivity]. specialize (Hstop eq_refl).
  destruct tun as [tun|]; simpl in *; [|reflexivity].
  destruct (tunnel_is_active W h tun); [discriminate|reflexivity].
Qed.

(** The calls of one teardown are pairwise different. *)
Lemma db_teardown_NoDup (st : state DBConnector.t) :
  NoDup (db_close_calls W (trace st) (self st)
         ++ stop_calls W (trace st ++ db_close_calls W (trace st) (self st))
              (SSHTunnelManager.tunnel (DBConnector.base (self st)))).
Proof.
  unfold db_close_calls, stop_calls.
  repeat case_step; repeat constructor;
    intros Hin; apply list_elem_of_In in Hin; simpl in Hin; intuition discriminate.
Qed.

Lemma redis_teardown_NoDup (st : state RedisConnector.t) :
  NoDup (redis_close_calls (self st)
         ++ (if RedisConnector.use_ssh (self st)
             then stop_calls W (trace st ++ redis_close_calls (self st))
                    (SSHTunnelManager.tunnel (RedisConnector.base (self st)))
             else [])).
Proof.
  unfold redis_close_calls, stop_calls.
  repeat case_step; repeat constructor;
    intros Hin; apply list_elem_of_In in Hin; simpl in Hin; intuition discriminate.
Qed.

End Settled.

(** ** Connecting *)

Section Connecting.
Context (W : World).

Lemma db_connect_except_raises (e : exn) (st : state DBConnector.t) :
  exists st', DBConnector.connect_except W e st = (Raise e, st').
Proof.
  unfold DBConnector.connect_except.
  destruct (isinstance e DBConnector.handled_connect); [|eexists; reflexivity].
  unfold bind, logger_exception, logger, raise.
  match goal with
  | |- context [DBConnector.disconnect W ?s] =>
      destruct (db_disconnect_spec W s) as (st' & -> & _)
  end.
  eexists; reflexivity.
Qed.

Lemma redis_connect_except_raises (e : exn) (st : state RedisConnector.t) :
  exists st', RedisConnector.connect_except W e st = (Raise e, st').
Proof.
  unfold RedisConnector.connect_except.
  destruct (isinstance e RedisConnector.handled); [|eexists; reflexivity].
  unfold bind, logger_exception, logger, raise.
  match goal with
  | |- context [RedisConnector.disconnect W ?s] =>
      destruct (redis_disconnect_spec W s) as (st' & -> & _)
  end.
  eexists; reflexivity.
Qed.

(** A [connect] that returns went through its whole [try] suite. *)
Lemma db_connect_ok (st st' : state DBConnector.t) :
  DBConnector.is_connected (self st) = false ->
  DBConnector.connect W st = (Ok tt, st') ->
  DBConnector.connect_try W st = (Ok tt, st').
Proof.
  intros Hc. unfold DBConnector.connect, bind, get_self, try_except. rewrite Hc.
  destruct (DBConnector.connect_try W st) as [[[]|e] st1]; [tauto|].
  destruct (db_connect_except_raises e st1) as (st2 & ->). discriminate.
Qed.

Lemma redis_connect_ok (st st' : state RedisConnector.t) :
  RedisConnector.is_connected (self st) = false ->
  RedisConnector.connect W st = (Ok tt, st') ->
  RedisConnector.connect_try W st = (Ok tt, st').
Proof.
  intros Hc. unfold RedisConnector.connect, bind, get_self, try_except. rewrite Hc.
  destruct (RedisConnector.connect_try W st) as [[[]|e] st1]; [tauto|].
  destruct (redis_connect_except_raises e st1) as (st2 & ->). discriminate.
Qed.

(** What a completed [try] suite has done. *)
Lemma db_connect_try_ok (st st' : state DBConnector.t) :
  DBConnector.connect_try W st = (Ok tt, st') ->
  DBConnector.is_connected (self st') = true /\
  (exists c, DBConnector.conn (self st') = Some c) /\
  exists d, trace st' = trace st ++ d /\
    count is_tunnel_start d = (if DBConnector.use_ssh (self st) then 1 else 0)%nat /\
    count is_backend_connect d = 1%nat /\
    count is_probe d = 1%nat.
Proof.
  destruct st as [[[cfg tun] ssh dbc c ic] h l].
  unfold DBConnector.connect_try, DBConnector.connect_address,
    DBConnector.connect_backend, DBConnector.connect_probe,
    SSHTunnelManager._setup_ssh_tunnel.
  unfold_monad. simpl.
  destruct ssh; simpl.
  all: run_to_outcome.
  all: intros [= <-]; simpl; rewrite <- ?app_assoc; simpl.
  all: repeat split; eauto.
Qed.

Lemma redis_connect_try_ok (st st' : state RedisConnector.t) :
  RedisConnector.connect_try W st = (Ok tt, st') ->
  RedisConnector.is_connected (self st') = true /\
  (exists r, RedisConnector.redis_conn (self st') = Some r) /\
  exists d, trace st' = trace st ++ d /\
    count is_tunnel_start d = (if RedisConnector.use_ssh (self st) then 1 else 0)%nat /\
    count is_backend_connect d = 1%nat /\
    count is_probe d = 1%nat.
Proof.
  destruct st as [[[cfg tun] ssh rc r ic] h l].
  unfold RedisConnector.connect_try, RedisConnector.connect_address,
    RedisConnector.connect_client, RedisConnector.connect_probe,
    SSHTunnelManager._setup_ssh_tunnel.
  unfold_monad. simpl.
  destruct ssh; simpl.
  all: run_to_outcome.
  all: intros [= <-]; simpl; rewrite <- ?app_assoc; simpl.
  all: repeat split; eauto.
Qed.

End Connecting.

(** ** Statements on a connected SQL session *)

Section Executing.
Context (W : World).

(** The [try] suites talk to the libraries only: the fields of the
    connector are as before, whatever happens. *)
Lemma execute_query_try_self sql params (st st' : state DBConnector.t) r :
  DBConnector.execute_query_try W sql params st = (r, st') -> self st' = self st.
Proof.
  destruct st as [[b ssh dbc c ic] h l].
  unfold DBConnector.execute_query_try. unfold_monad. simpl.
  run; intros [= <- <-]; reflexivity.
Qed.

Lemma execute_update_try_self sql params (st st' : state DBConnector.t) r :
  DBConnector.execute_update_try W sql params st = (r, st') -> self st' = self st.
Proof.
  destruct st as [[b ssh dbc c ic] h l].
  unfold DBConnector.execute_update_try. unfold_monad. simpl.
  run; intros [= <- <-]; reflexivity.
Qed.

(** The [except] clause on a session that holds connection [c]. *)
Lemma on_execute_error_run {A} msg (e : exn) (st : state DBConnector.t) c :
  DBConnector.conn (self st) = Some c ->
  let st' := State (self st) (trace st ++ [conn_rollback c])
               (log st ++ [Log ERROR msg (Some e)]) in
  @DBConnector.on_execute_error W A msg e st =
    if isinstance e DBConnector.handled_execute then
      match reply W (trace st) (conn_rollback c) with
      | inr _ => (Raise e, st')
      | inl e' => (Raise e', st')
      end
    else (Raise e, st).
Proof.
  intros Hc. unfold DBConnector.on_execute_error.
  destruct (isinstance e DBConnector.handled_execute); [|reflexivity].
  unfold_monad. simpl. rewrite Hc. simpl.
  destruct (reply W (trace st) (conn_rollback c)); reflexivity.
Qed.

End Executing.

(** ** The examples run *)

Example gw_connector_built :
  DBConnector.__init__ ascii_py gw_config false (fresh tt) = (Ok gw_connector, fresh tt).
Proof. vm_compute. reflexivity. Qed.

Example rank_connector_built :
  RedisConnector.__init__ ascii_py rank_config true (fresh tt) = (Ok rank_connector, fresh tt).
Proof. vm_compute. reflexivity. Qed.

Example gw_connects :
  fst (DBConnector.connect calm (fresh gw_connector)) = Ok tt.
Proof. vm_compute. reflexivity. Qed.

Example rank_connects :
  fst (RedisConnector.connect calm (fresh rank_connector)) = Ok tt.
Proof. vm_compute. reflexivity. Qed.

(** Two failures that the [except] clauses of [connect()] do not name.
    The forward of the SQL session cannot be opened: the error goes to the
    caller and the tunnel object stays, active and not stopped. *)
Example db_tunnel_failure_is_not_unwound :
  exists st',
    DBConnector.connect forward_failing (fresh gw_tunnel_connector)
      = (Raise forward_failed, st') /\
    SSHTunnelManager.tunnel (DBConnector.base (self st')) = Some 0%nat /\
    tunnel_is_active forward_failing (trace st') 0%nat = true /\
    ~ In (tunnel_stop 0%nat) (trace st').
Proof.
  eexists. split; [vm_compute; reflexivity|]. repeat split.
  simpl. intuition discriminate.
Qed.

(** The cache answers the probe with [False]: the builtin
    [ConnectionError] goes to the caller, the client and the tunnel
    stay. *)
Example redis_false_ping_is_not_unwound :
  exists st',
    RedisConnector.connect not_pong (fresh rank_connector)
      = (Raise (Exn ConnectionError "Redis连接测试失败"), st') /\
    RedisConnector.redis_conn (self st') = Some 4%nat /\
    SSHTunnelManager.tunnel (RedisConnector.base (self st')) = Some 0%nat /\
    RedisConnector.is_connected (self st') = false /\
    ~ In (redis_close 4%nat) (trace st') /\
    ~ In (tunnel_stop 0%nat) (trace st').
Proof.
  eexists. split; [vm_compute; reflexivity|]. repeat split.
  all: simpl; intuition discriminate.
Qed.

(** * The claims *)

(** C4.  [disconnect()] never raises.  It first closes the backing
    connection if the session holds one (for SQL: one that its library
    reports open), then stops the tunnel if the session holds an active
    one, and ends with the connection dropped and the session marked
    disconnected.  The calls made are [closes ++ stops], neither of which
    depends on the outcome of a close: each step runs whether or not the
    other fails.  An error raised by a close is written to the log. *)
Theorem disconnect_tears_down_and_never_raises (W : World) :
  (forall st : state DBConnector.t,
     let closes := db_close_calls W (trace st) (self st) in
     let stops := stop_calls W (trace st ++ closes)
                    (SSHTunnelManager.tunnel (DBConnector.base (self st))) in
     exists st',
       DBConnector.disconnect W st = (Ok tt, st') /\
       DBConnector.conn (self st') = None /\
       DBConnector.is_connected (self st') = false /\
       trace st' = trace st ++ closes ++ stops /\
       (forall c e, In (conn_close c) closes ->
          reply W (trace st) (conn_close c) = inl e ->
          In (Log ERROR "关闭数据库连接失败: " (Some e)) (log st')) /\
       (forall t e, In (tunnel_stop t) stops ->
          reply W (trace st ++ closes) (tunnel_stop t) = inl e ->
          In (Log ERROR "关闭SSH隧道失败: " (Some e)) (log st'))) /\
  (forall st : state RedisConnector.t,
     let closes := redis_close_calls (self st) in
     let stops := if RedisConnector.use_ssh (self st)
                  then stop_calls W (trace st ++ closes)
                         (SSHTunnelManager.tunnel (RedisConnector.base (self st)))
                  else [] in
     exists st',
       RedisConnector.disconnect W st = (Ok tt, st') /\
       RedisConnector.redis_conn (self st') = None /\
       RedisConnector.is_connected (self st') = false /\
       trace st' = trace st ++ closes ++ stops /\
       (forall r e, In (redis_close r) closes ->
          reply W (trace st) (redis_close r) = inl e ->
          In (Log ERROR "关闭Redis连接失败: " (Some e)) (log st')) /\
       (forall t e, In (tunnel_stop t) stops ->
          reply W (trace st ++ closes) (tunnel_stop t) = inl e ->
          In (Log ERROR "关闭SSH隧道失败: " (Some e)) (log st'))).
Proof.
  split; intros st closes stops.
  - destruct (db_disconnect_spec W st) as (st' & Hrun & Hc & Hi & Ht & _ & Hl1 & Hl2).
    exists st'. auto 10.
  - destruct (redis_disconnect_spec W st) as (st' & Hrun & Hc & Hi & _ & Ht & _ & Hl1 & Hl2).
    exists st'. auto 10.
Qed.

(** C9.  Two [disconnect()] calls in a row: the second returns normally
    and changes nothing, so it closes nothing again; the session is
    disconnected; and among the calls [d] of the pair no close occurs
    twice. *)
Theorem disconnect_twice_is_idempotent (W : World) :
  (forall st : state DBConnector.t,
     exists st1 d,
       DBConnector.disconnect W st = (Ok tt, st1) /\
       DBConnector.disconnect W st1 = (Ok tt, st1) /\
       DBConnector.is_connected (self st1) = false /\
       DBConnector.conn (self st1) = None /\
       trace st1 = trace st ++ d /\ NoDup d) /\
  (forall st : state RedisConnector.t,
     exists st1 d,
       RedisConnector.disconnect W st = (Ok tt, st1) /\
       RedisConnector.disconnect W st1 = (Ok tt, st1) /\
       RedisConnector.is_connected (self st1) = false /\
       RedisConnector.redis_conn (self st1) = None /\
       trace st1 = trace st ++ d /\ NoDup d).
Proof.
  split; intros st.
  - destruct (db_disconnect_spec W st) as (st1 & Hrun & Hc & Hi & Ht & Hs & _).
    eexists st1, _. repeat split; eauto using db_disconnect_settled, db_teardown_NoDup.
  - destruct (redis_disconnect_spec W st) as (st1 & Hrun & Hc & Hi & Hu & Ht & Hs & _).
    eexists st1, _. repeat split; eauto using redis_teardown_NoDup.
    apply redis_disconnect_settled; auto.
    intros Hssh. rewrite Hu in Hssh. rewrite Hssh in Hs. exact Hs.
Qed.

(** C5.  On a disconnected SQL session [execute_query] and
    [execute_update] raise the not-connected error (Python's builtin
    [ConnectionError], message "数据库未连接") and leave the state as it
    was: the trace is unchanged, so no cursor was created and nothing was
    sent. *)
Theorem execute_on_disconnected_session (W : World) sql params
    (st : state DBConnector.t) :
  DBConnector.is_connected (self st) = false ->
  DBConnector.execute_query W sql params st
    = (Raise (Exn ConnectionError "数据库未连接"), st) /\
  DBConnector.execute_update W sql params st
    = (Raise (Exn ConnectionError "数据库未连接"), st).
Proof.
  intros Hc.
  unfold DBConnector.execute_query, DBConnector.execute_update, bind, get_self, raise.
  rewrite Hc. split; reflexivity.
Qed.

Lemma execute_on_disconnected_session_witness :
  DBConnector.execute_query calm "SELECT * FROM rank" None (fresh gw_connector)
    = (Raise (Exn ConnectionError "数据库未连接"), fresh gw_connector) /\
  DBConnector.execute_update calm "SELECT * FROM rank" None (fresh gw_connector)
    = (Raise (Exn ConnectionError "数据库未连接"), fresh gw_connector).
Proof.
  apply (execute_on_disconnected_session calm "SELECT * FROM rank" None (fresh gw_connector)).
  reflexivity.
Defined.

(** C7.  A configuration that lacks a required field is rejected by the
    constructor with the configuration error (Python's [ValueError]), and
    the constructor leaves the state as it was: no library call is made.
    Required are the five [db_*] fields for the SQL session, [redis_host]
    for the cache session, and [ssh_host] and [ssh_username] for either
    when tunneling is requested. *)
Theorem missing_field_fails_at_construction (py : Builtins)
    (config : gmap string value) (use_ssh : bool) (st : state unit) :
  ((exists f, In f DBConnector.required /\ config !! f = None) \/
   (use_ssh = true /\ (config !! "ssh_host" = None \/ config !! "ssh_username" = None)) ->
   exists msg,
     DBConnector.__init__ py config use_ssh st = (Raise (Exn ValueError msg), st)) /\
  (config !! "redis_host" = None \/
   (use_ssh = true /\ (config !! "ssh_host" = None \/ config !! "ssh_username" = None)) ->
   exists msg,
     RedisConnector.__init__ py config use_ssh st = (Raise (Exn ValueError msg), st)).
Proof.
  assert (Hssh : use_ssh = true ->
                 config !! "ssh_host" = None \/ config !! "ssh_username" = None ->
                 use_ssh && negb (forallb (fun k => dict_in k config)
                                    ["ssh_host"; "ssh_username"]) = true).
  { intros -> [H|H]; simpl; unfold dict_in; rewrite H; simpl;
      rewrite ?andb_false_r; reflexivity. }
  split.
  - intros H. unfold DBConnector.__init__.
    destruct (existsb _ DBConnector.required) eqn:Hreq; [eexists; reflexivity|].
    destruct H as [(f & Hin & Hf)|[Hu Hs]].
    + exfalso. apply not_true_iff_false in Hreq. apply Hreq.
      apply existsb_exists. exists f. split; [exact Hin|].
      unfold dict_in. rewrite Hf. reflexivity.
    + rewrite (Hssh Hu Hs). eexists; reflexivity.
  - intros H. unfold RedisConnector.__init__.
    destruct (use_ssh && _) eqn:Hs; [eexists; reflexivity|].
    destruct H as [Hh|[Hu Hm]].
    + unfold dict_get. rewrite Hh. simpl. eexists; reflexivity.
    + discriminate (Hssh Hu Hm).
Qed.

Lemma missing_field_fails_at_construction_witness :
  (exists msg,
     DBConnector.__init__ ascii_py (delete "db_name" gw_config) false (fresh tt)
       = (Raise (Exn ValueError msg), fresh tt)) /\
  (exists msg,
     RedisConnector.__init__ ascii_py (delete "ssh_username" rank_config) true (fresh tt)
       = (Raise (Exn ValueError msg), fresh tt)).
Proof.
  split.
  - apply (proj1 (missing_field_fails_at_construction ascii_py
                    (delete "db_name" gw_config) false (fresh tt))).
    left. exists "db_name". split; [simpl; tauto | vm_compute; reflexivity].
  - apply (proj2 (missing_field_fails_at_construction ascii_py
                    (delete "ssh_username" rank_config) true (fresh tt))).
    right. split; [reflexivity | right; vm_compute; reflexivity].
Defined.

(** C8.  On a connected session [connect()] only writes a warning: the
    object and the trace are unchanged.  Hence for two calls in a row of
    which the first succeeds, the calls of the pair are those of the first:
    one tunnel start when tunneling is requested (none otherwise), one
    backend connect and one liveness probe. *)
Theorem connect_twice_connects_once (W : World) :
  (forall st : state DBConnector.t,
     DBConnector.is_connected (self st) = true ->
     DBConnector.connect W st
       = (Ok tt, State (self st) (trace st)
                   (log st ++ [Log WARNING "数据库连接已存在" None]))) /\
  (forall st st1 : state DBConnector.t,
     DBConnector.is_connected (self st) = false ->
     DBConnector.connect W st = (Ok tt, st1) ->
     exists st2 d,
       DBConnector.connect W st1 = (Ok tt, st2) /\
       self st2 = self st1 /\
       trace st2 = trace st ++ d /\
       count is_tunnel_start d = (if DBConnector.use_ssh (self st) then 1 else 0)%nat /\
       count is_backend_connect d = 1%nat /\
       count is_probe d = 1%nat) /\
  (forall st : state RedisConnector.t,
     RedisConnector.is_connected (self st) = true ->
     RedisConnector.connect W st
       = (Ok tt, State (self st) (trace st)
                   (log st ++ [Log WARNING "Redis连接已存在" None]))) /\
  (forall st st1 : state RedisConnector.t,
     RedisConnector.is_connected (self st) = false ->
     RedisConnector.connect W st = (Ok tt, st1) ->
     exists st2 d,
       RedisConnector.connect W st1 = (Ok tt, st2) /\
       self st2 = self st1 /\
       trace st2 = trace st ++ d /\
       count is_tunnel_start d = (if RedisConnector.use_ssh (self st) then 1 else 0)%nat /\
       count is_backend_connect d = 1%nat /\
       count is_probe d = 1%nat).
Proof.
  assert (Hdb : forall st : state DBConnector.t,
            DBConnector.is_connected (self st) = true ->
            DBConnector.connect W st
              = (Ok tt, State (self st) (trace st)
                          (log st ++ [Log WARNING "数据库连接已存在" None]))).
  { intros st Hc. unfold DBConnector.connect, bind, get_self. rewrite Hc. reflexivity. }
  assert (Hredis : forall st : state RedisConnector.t,
            RedisConnector.is_connected (self st) = true ->
            RedisConnector.connect W st
              = (Ok tt, State (self st) (trace st)
                          (log st ++ [Log WARNING "Redis连接已存在" None]))).
  { intros st Hc. unfold RedisConnector.connect, bind, get_self. rewrite Hc. reflexivity. }
  repeat split; auto.
  - intros st st1 Hc Hrun.
    apply db_connect_ok in Hrun; [|exact Hc].
    apply db_connect_try_ok in Hrun as (Hc1 & _ & d & Ht & Hcount).
    eexists _, d. split; [apply Hdb, Hc1|]. simpl. auto.
  - intros st st1 Hc Hrun.
    apply redis_connect_ok in Hrun; [|exact Hc].
    apply redis_connect_try_ok in Hrun as (Hc1 & _ & d & Ht & Hcount).
    eexists _, d. split; [apply Hredis, Hc1|]. simpl. auto.
Qed.

Lemma connect_twice_connects_once_witness :
  (exists st2 d,
     DBConnector.connect calm (snd (DBConnector.connect calm (fresh gw_connector)))
       = (Ok tt, st2) /\
     self st2 = self (snd (DBConnector.connect calm (fresh gw_connector))) /\
     trace st2 = [] ++ d /\
     count is_tunnel_start d = 0%nat /\
     count is_backend_connect d = 1%nat /\
     count is_probe d = 1%nat) /\
  (exists st2 d,
     RedisConnector.connect calm (snd (RedisConnector.connect calm (fresh rank_connector)))
       = (Ok tt, st2) /\
     self st2 = self (snd (RedisConnector.connect calm (fresh rank_connector))) /\
     trace st2 = [] ++ d /\
     count is_tunnel_start d = 1%nat /\
     count is_backend_connect d = 1%nat /\
     count is_probe d = 1%nat).
Proof.
  destruct (connect_twice_connects_once calm) as (_ & Hdb & _ & Hredis).
  split.
  - apply (Hdb (fresh gw_connector)); [reflexivity | vm_compute; reflexivity].
  - apply (Hredis (fresh rank_connector)); [reflexivity | vm_compute; reflexivity].
Defined.

Lemma disconnect_tears_down_and_never_raises_witness :
  exists st',
    DBConnector.disconnect close_failing
      (snd (DBConnector.connect close_failing (fresh gw_connector))) = (Ok tt, st') /\
    In (Log ERROR "关闭数据库连接失败: " (Some lost)) (log st').
Proof.
  destruct (proj1 (disconnect_tears_down_and_never_raises close_failing)
              (snd (DBConnector.connect close_failing (fresh gw_connector))))
    as (st' & Hrun & _ & _ & _ & Hlog & _).
  exists st'. split; [exact Hrun|].
  apply (Hlog 0%nat lost); [vm_compute; left; reflexivity | vm_compute; reflexivity].
Defined.

(** ** Failure while connecting *)

Section ConnectFailure.
Context (W : World).

(** The [except] clause on a failure it names: [disconnect] runs to the
    end and the same exception goes on. *)
Lemma db_connect_except_handled (e : exn) (st : state DBConnector.t) :
  isinstance e DBConnector.handled_connect = true ->
  exists st',
    DBConnector.disconnect W
      (State (self st) (trace st) (log st ++ [Log ERROR "连接失败: " (Some e)]))
      = (Ok tt, st') /\
    DBConnector.connect_except W e st = (Raise e, st') /\
    DBConnector.conn (self st') = None /\
    DBConnector.is_connected (self st') = false /\
    stop_calls W (trace st') (SSHTunnelManager.tunnel (DBConnector.base (self st'))) = [].
Proof.
  intros He. unfold DBConnector.connect_except. rewrite He.
  unfold bind, logger_exception, logger, raise.
  match goal with
  | |- context [DBConnector.disconnect W ?s] =>
      destruct (db_disconnect_spec W s) as (st' & Hrun & Hc & Hi & _ & Hs & _)
  end.
  exists st'. rewrite Hrun. auto.
Qed.

Lemma redis_connect_except_handled (e : exn) (st : state RedisConnector.t) :
  isinstance e RedisConnector.handled = true ->
  exists st',
    RedisConnector.disconnect W
      (State (self st) (trace st) (log st ++ [Log ERROR "连接失败: " (Some e)]))
      = (Ok tt, st') /\
    RedisConnector.connect_except W e st = (Raise e, st') /\
    RedisConnector.redis_conn (self st') = None /\
    RedisConnector.is_connected (self st') = false /\
    (if RedisConnector.use_ssh (self st)
     then stop_calls W (trace st')
            (SSHTunnelManager.tunnel (RedisConnector.base (self st'))) = []
     else SSHTunnelManager.tunnel (RedisConnector.base (self st'))
          = SSHTunnelManager.tunnel (RedisConnector.base (self st))).
Proof.
  intros He. unfold RedisConnector.connect_except. rewrite He.
  unfold bind, logger_exception, logger, raise.
  match goal with
  | |- context [RedisConnector.disconnect W ?s] =>
      destruct (redis_disconnect_spec W s) as (st' & Hrun & Hc & Hi & _ & _ & Hs & _)
  end.
  exists st'. rewrite Hrun. auto.
Qed.

(** Without tunneling the [try] suite of the cache session leaves the
    tunnel field alone; the [use_ssh] flag never changes. *)
Lemma redis_connect_try_frame (st st' : state RedisConnector.t) r :
  RedisConnector.connect_try W st = (r, st') ->
  RedisConnector.use_ssh (self st') = RedisConnector.use_ssh (self st) /\
  (RedisConnector.use_ssh (self st) = false ->
   SSHTunnelManager.tunnel (RedisConnector.base (self st'))
   = SSHTunnelManager.tunnel (RedisConnector.base (self st))).
Proof.
  destruct st as [[[cfg tun] ssh rc c ic] h l].
  unfold RedisConnector.connect_try, RedisConnector.connect_address,
    RedisConnector.connect_client, RedisConnector.connect_probe,
    SSHTunnelManager._setup_ssh_tunnel.
  unfold_monad. simpl.
  destruct ssh; simpl.
  all: run; intros [= <- <-]; simpl; split; congruence.
Qed.

End ConnectFailure.

(** C1, as the code has it.  When the [try] suite of [connect()] fails
    with an exception of a class that the [except] clause names (SQL:
    pymysql.Error, psycopg2.Error, ValueError; cache: redis.RedisError,
    BaseSSHTunnelForwarderError, paramiko's SSHException), [connect()]
    logs it, runs [disconnect()] on the state the failure left, which
    returns normally, and then raises the very same exception: it is not
    wrapped into another one. *)
Theorem connect_failure_unwinds_and_reraises (W : World) :
  (forall (st st1 : state DBConnector.t) (e : exn),
     DBConnector.is_connected (self st) = false ->
     DBConnector.connect_try W st = (Raise e, st1) ->
     isinstance e DBConnector.handled_connect = true ->
     exists st2,
       DBConnector.disconnect W
         (State (self st1) (trace st1) (log st1 ++ [Log ERROR "连接失败: " (Some e)]))
         = (Ok tt, st2) /\
       DBConnector.connect W st = (Raise e, st2)) /\
  (forall (st st1 : state RedisConnector.t) (e : exn),
     RedisConnector.is_connected (self st) = false ->
     RedisConnector.connect_try W st = (Raise e, st1) ->
     isinstance e RedisConnector.handled = true ->
     exists st2,
       RedisConnector.disconnect W
         (State (self st1) (trace st1) (log st1 ++ [Log ERROR "连接失败: " (Some e)]))
         = (Ok tt, st2) /\
       RedisConnector.connect W st = (Raise e, st2)).
Proof.
  split; intros st st1 e Hc Htry He.
  - destruct (db_connect_except_handled W e st1 He) as (st2 & Hd & Hx & _).
    exists st2. split; [exact Hd|].
    unfold DBConnector.connect, bind, get_self, try_except.
    rewrite Hc, Htry. exact Hx.
  - destruct (redis_connect_except_handled W e st1 He) as (st2 & Hd & Hx & _).
    exists st2. split; [exact Hd|].
    unfold RedisConnector.connect, bind, get_self, try_except.
    rewrite Hc, Htry. exact Hx.
Qed.

Lemma connect_failure_unwinds_and_reraises_witness :
  (exists st2,
     DBConnector.conn (self (snd (DBConnector.connect_try probe_failing
                                    (fresh gw_connector)))) = Some 0%nat /\
     DBConnector.disconnect probe_failing
       (State (self (snd (DBConnector.connect_try probe_failing (fresh gw_connector))))
          (trace (snd (DBConnector.connect_try probe_failing (fresh gw_connector))))
          (log (snd (DBConnector.connect_try probe_failing (fresh gw_connector)))
           ++ [Log ERROR "连接失败: " (Some gone_away)]))
       = (Ok tt, st2) /\
     DBConnector.connect probe_failing (fresh gw_connector) = (Raise gone_away, st2) /\
     last (trace st2) = Some (conn_close 0%nat) /\
     DBConnector.conn (self st2) = None) /\
  (exists st2,
     RedisConnector.redis_conn (self (snd (RedisConnector.connect_try ping_failing
                                             (fresh rank_connector)))) = Some 4%nat /\
     SSHTunnelManager.tunnel
       (RedisConnector.base (self (snd (RedisConnector.connect_try ping_failing
                                          (fresh rank_connector))))) = Some 0%nat /\
     RedisConnector.disconnect ping_failing
       (State (self (snd (RedisConnector.connect_try ping_failing (fresh rank_connector))))
          (trace (snd (RedisConnector.connect_try ping_failing (fresh rank_connector))))
          (log (snd (RedisConnector.connect_try ping_failing (fresh rank_connector)))
           ++ [Log ERROR "连接失败: " (Some loading)]))
       = (Ok tt, st2) /\
     RedisConnector.connect ping_failing (fresh rank_connector) = (Raise loading, st2) /\
     In (redis_close 4%nat) (trace st2) /\
     last (trace st2) = Some (tunnel_stop 0%nat) /\
     RedisConnector.redis_conn (self st2) = None /\
     SSHTunnelManager.tunnel (RedisConnector.base (self st2)) = None).
Proof.
  split.
  - destruct (proj1 (connect_failure_unwinds_and_reraises probe_failing)
                (fresh gw_connector)
                (snd (DBConnector.connect_try probe_failing (fresh gw_connector)))
                gone_away)
      as (st2 & Hd & Hx).
    + reflexivity.
    + vm_compute. reflexivity.
    + vm_compute. reflexivity.
    + exists st2. split; [vm_compute; reflexivity|].
      split; [exact Hd|]. split; [exact Hx|].
      vm_compute in Hx. injection Hx as <-. split; vm_compute; reflexivity.
  - destruct (proj2 (connect_failure_unwinds_and_reraises ping_failing)
                (fresh rank_connector)
                (snd (RedisConnector.connect_try ping_failing (fresh rank_connector)))
                loading)
      as (st2 & Hd & Hx).
    + reflexivity.
    + vm_compute. reflexivity.
    + vm_compute. reflexivity.
    + exists st2. split; [vm_compute; reflexivity|].
      split; [vm_compute; reflexivity|].
      split; [exact Hd|]. split; [exact Hx|].
      vm_compute in Hx. injection Hx as <-.
      split; [vm_compute; tauto|]. repeat split; vm_compute; reflexivity.
Defined.

(** C1 as stated fails: the server refuses the connection, and what
    [connect()] raises is pymysql's own error, not a [ConnectionError]
    around it. *)
Lemma connect_failure_is_not_wrapped :
  exists st',
    DBConnector.connect refusing (fresh gw_connector) = (Raise refused, st') /\
    exn_cls refused <> ConnectionError.
Proof.
  eexists. split; [vm_compute; reflexivity | discriminate].
Qed.

(** C3, as the code has it.  When the address and the backend connection
    are obtained and the liveness probe then fails with an exception of a
    class that the [except] clause of [connect()] names, the session ends
    disconnected: [is_connected] is false, no connection is retained, and
    no active tunnel is retained (for the cache session without tunneling
    the tunnel field is as it was).  What the caller gets is the exception
    of the probe itself. *)
Theorem probe_failure_leaves_disconnected (W : World) :
  (forall (st st1 st2 st3 : state DBConnector.t) local (e : exn),
     DBConnector.is_connected (self st) = false ->
     DBConnector.connect_address W st = (Ok local, st1) ->
     DBConnector.connect_backend W local st1 = (Ok tt, st2) ->
     DBConnector.connect_probe W st2 = (Raise e, st3) ->
     isinstance e DBConnector.handled_connect = true ->
     exists st',
       DBConnector.connect W st = (Raise e, st') /\
       DBConnector.is_connected (self st') = false /\
       DBConnector.conn (self st') = None /\
       stop_calls W (trace st')
         (SSHTunnelManager.tunnel (DBConnector.base (self st'))) = []) /\
  (forall (st st1 st2 st3 : state RedisConnector.t) (e : exn),
     RedisConnector.is_connected (self st) = false ->
     RedisConnector.connect_address W st = (Ok tt, st1) ->
     RedisConnector.connect_client W st1 = (Ok tt, st2) ->
     RedisConnector.connect_probe W st2 = (Raise e, st3) ->
     isinstance e RedisConnector.handled = true ->
     exists st',
       RedisConnector.connect W st = (Raise e, st') /\
       RedisConnector.is_connected (self st') = false /\
       RedisConnector.redis_conn (self st') = None /\
       (if RedisConnector.use_ssh (self st)
        then stop_calls W (trace st')
               (SSHTunnelManager.tunnel (RedisConnector.base (self st'))) = []
        else SSHTunnelManager.tunnel (RedisConnector.base (self st'))
             = SSHTunnelManager.tunnel (RedisConnector.base (self st)))).
Proof.
  split.
  - intros st st1 st2 st3 local e Hc Ha Hb Hp He.
    destruct (db_connect_except_handled W e st3 He) as (st' & _ & Hx & Hconn & Hi & Hs).
    exists st'. repeat split; auto.
    unfold DBConnector.connect, bind, get_self, try_except. rewrite Hc.
    unfold DBConnector.connect_try, bind. rewrite Ha, Hb, Hp. exact Hx.
  - intros st st1 st2 st3 e Hc Ha Hb Hp He.
    assert (Htry : RedisConnector.connect_try W st = (Raise e, st3)).
    { unfold RedisConnector.connect_try, bind. rewrite Ha, Hb, Hp. reflexivity. }
    destruct (redis_connect_try_frame W _ _ _ Htry) as (Hu & Ht).
    destruct (redis_connect_except_handled W e st3 He) as (st' & _ & Hx & Hconn & Hi & Hs).
    exists st'. repeat split; auto.
    + unfold RedisConnector.connect, bind, get_self, try_except. rewrite Hc, Htry. exact Hx.
    + rewrite Hu in Hs. destruct (RedisConnector.use_ssh (self st)); [exact Hs|].
      rewrite Hs. auto.
Qed.

Lemma probe_failure_leaves_disconnected_witness :
  (exists st',
     DBConnector.connect probe_failing (fresh gw_connector) = (Raise gone_away, st') /\
     DBConnector.is_connected (self st') = false /\
     DBConnector.conn (self st') = None /\
     stop_calls probe_failing (trace st')
       (SSHTunnelManager.tunnel (DBConnector.base (self st'))) = []) /\
  (exists st',
     RedisConnector.connect ping_failing (fresh rank_connector) = (Raise loading, st') /\
     RedisConnector.is_connected (self st') = false /\
     RedisConnector.redis_conn (self st') = None /\
     stop_calls ping_failing (trace st')
       (SSHTunnelManager.tunnel (RedisConnector.base (self st'))) = []).
Proof.
  destruct (probe_failure_leaves_disconnected probe_failing) as (Hdb & _).
  destruct (probe_failure_leaves_disconnected ping_failing) as (_ & Hredis).
  split.
  - apply (Hdb (fresh gw_connector)
             (snd (DBConnector.connect_address probe_failing (fresh gw_connector)))
             (snd (DBConnector.connect_backend probe_failing (VStr "10.0.0.5", 3306)
                     (fresh gw_connector)))
             (snd (DBConnector.connect_try probe_failing (fresh gw_connector)))
             (VStr "10.0.0.5", 3306) gone_away).
    all: vm_compute; reflexivity.
  - apply (Hredis (fresh rank_connector)
             (snd (RedisConnector.connect_address ping_failing (fresh rank_connector)))
             (snd (RedisConnector.connect_client ping_failing
                     (snd (RedisConnector.connect_address ping_failing
                             (fresh rank_connector)))))
             (snd (RedisConnector.connect_try ping_failing (fresh rank_connector)))
             loading).
    all: vm_compute; reflexivity.
Defined.

(** C3 as stated fails: the connection is made, the probe fails with
    pymysql's error, the session is torn down, and the caller gets that
    error, which is not a [ConnectionError]. *)
Lemma probe_failure_is_not_connection_error :
  exists st',
    DBConnector.connect probe_failing (fresh gw_connector) = (Raise gone_away, st') /\
    trace st' =
      [pymysql_connect (VStr "10.0.0.5") (VInt 3306) (VStr "root") (VStr "")
         (VStr "gateway") (VStr "utf8mb4") DictCursor;
       conn_cursor 0%nat; cursor_execute 1%nat "SELECT 1" None; cursor_close 1%nat;
       conn_close 0%nat] /\
    exn_cls gone_away <> ConnectionError.
Proof.
  eexists. split; [vm_compute; reflexivity | split; [reflexivity | discriminate]].
Qed.

(** C6, as the code has it.  On a connected SQL session, when the [try]
    suite of [execute_query] or [execute_update] fails with a
    [pymysql.Error] or a [psycopg2.Error], one record is logged that holds
    the failure and a message ending in the statement text, and a rollback
    is issued on the connection; if the rollback returns, the backend error
    itself is raised (the statement text is in the log only, not in what is
    raised); if the rollback raises, its exception is what the caller
    gets.  A failure of another class goes on as it is, without rollback
    and without a record.  In each case the call raises: no rows and no
    row count are returned.  The last part says that a statement that
    fails in [cursor.execute] makes the [try] suite fail in this way. *)
Theorem execute_failure_rolls_back (W : World) sql params
    (st : state DBConnector.t) (c : obj) :
  DBConnector.is_connected (self st) = true ->
  DBConnector.conn (self st) = Some c ->
  let outcome (A : Type) (head : string) (e : exn) (st1 : state DBConnector.t)
      : result A * state DBConnector.t :=
    let st2 := State (self st1) (trace st1 ++ [conn_rollback c])
                 (log st1 ++ [Log ERROR (head +:+ String "010" "SQL: " +:+ sql)
                                (Some e)]) in
    if isinstance e DBConnector.handled_execute then
      match reply W (trace st1) (conn_rollback c) with
      | inr _ => (Raise e, st2)
      | inl e' => (Raise e', st2)
      end
    else (Raise e, st1) in
  let cur := length (trace st) in
  let failed :=
    State (self st)
      (trace st ++ [conn_cursor c; cursor_execute cur sql (DBConnector.params_or_empty params);
                    cursor_close cur])
      (log st) in
  (forall e st1,
     DBConnector.execute_query_try W sql params st = (Raise e, st1) ->
     DBConnector.execute_query W sql params st = outcome rows "查询执行失败: " e st1) /\
  (forall e st1,
     DBConnector.execute_update_try W sql params st = (Raise e, st1) ->
     DBConnector.execute_update W sql params st = outcome Z "更新执行失败: " e st1) /\
  (forall e,
     reply W (trace st) (conn_cursor c) = inr tt ->
     reply W (trace st ++ [conn_cursor c])
       (cursor_execute cur sql (DBConnector.params_or_empty params)) = inl e ->
     reply W (trace st ++ [conn_cursor c;
                           cursor_execute cur sql (DBConnector.params_or_empty params)])
       (cursor_close cur) = inr tt ->
     DBConnector.execute_query_try W sql params st = (Raise e, failed) /\
     DBConnector.execute_update_try W sql params st = (Raise e, failed)).
Proof.
  intros Hi Hc outcome cur failed.
  assert (Hguard : negb (DBConnector.is_connected (self st))
                   || negb (bool_decide (is_Some (DBConnector.conn (self st)))) = false).
  { rewrite Hi, Hc. reflexivity. }
  split; [|split].
  - intros e st1 Htry.
    unfold DBConnector.execute_query, bind, get_self, try_except.
    rewrite Hguard, Htry.
    apply execute_query_try_self in Htry.
    apply on_execute_error_run. rewrite Htry. exact Hc.
  - intros e st1 Htry.
    unfold DBConnector.execute_update, bind, get_self, try_except.
    rewrite Hguard, Htry.
    apply execute_update_try_self in Htry.
    apply on_execute_error_run. rewrite Htry. exact Hc.
  - intros e H1 H2 H3. subst failed cur.
    destruct st as [s h l]. simpl in *.
    unfold DBConnector.execute_query_try, DBConnector.execute_update_try.
    unfold_monad. simpl. rewrite Hc. simpl. rewrite H1. simpl. rewrite H2. simpl.
    rewrite <- ?app_assoc. simpl. rewrite H3. rewrite <- ?app_assoc. simpl.
    split; reflexivity.
Qed.

Lemma execute_failure_rolls_back_witness :
  exists st',
    DBConnector.execute_update rollback_failing "UPDATE rank SET score = 0" None
      (gw_connected rollback_failing) = (Raise gone_away, st') /\
    In (conn_rollback 0%nat) (trace st') /\
    exists head,
      last (log st') = Some (Log ERROR (head +:+ "UPDATE rank SET score = 0")
                               (Some deadlock)).
Proof.
  destruct (execute_failure_rolls_back rollback_failing "UPDATE rank SET score = 0" None
              (gw_connected rollback_failing) 0%nat eq_refl eq_refl)
    as (_ & Hupdate & _).
  eexists. split.
  - rewrite (Hupdate deadlock
               (snd (DBConnector.execute_update_try rollback_failing
                       "UPDATE rank SET score = 0" None (gw_connected rollback_failing)))).
    + vm_compute. reflexivity.
    + vm_compute. reflexivity.
  - split; [vm_compute; tauto|].
    exists ("更新执行失败: " +:+ String "010" "SQL: "). vm_compute. reflexivity.
Defined.

(** C6 as stated fails: the statement fails with a deadlock, the rollback
    fails because the server is gone, and the caller gets the error of the
    rollback in place of the error of the statement. *)
Lemma rollback_failure_replaces_error :
  exists st',
    reply rollback_failing (trace (gw_connected rollback_failing) ++ [conn_cursor 0%nat])
      (cursor_execute 4%nat "UPDATE rank SET score = 0" (Some [])) = inl deadlock /\
    DBConnector.execute_update rollback_failing "UPDATE rank SET score = 0" None
      (gw_connected rollback_failing) = (Raise gone_away, st') /\
    gone_away <> deadlock.
Proof.
  eexists. split; [reflexivity|]. split; [vm_compute; reflexivity | discriminate].
Qed.

(** C10, as the code has it.  Take a call of [MySQL.execute] that opens
    its connection [c] and its cursor [cur].

    - Cleanup: on every path the [finally] block calls [cursor.close()] on
      [cur] after everything else, and then [conn.close()] on [c] unless
      [cursor.close()] raised; in that case the connection is not closed
      and the call raises the error of [cursor.close()].
    - Value: when the statement executes and commits, a value the call
      returns is [cursor.lastrowid] if the stripped, lowercased statement
      starts with "insert into", and the result of [cursor.fetchall()]
      otherwise; and the call does return once the fetch (where there is
      one) and the two closes succeed. *)
Theorem execute_value_and_cleanup (W : World) (py : Builtins) sql params
    (st : state MySQL.t) :
  let c := length (trace st) in
  let cur := S c in
  let connect_call :=
    pymysql_connect (MySQL.host (self st)) (MySQL.port (self st)) (MySQL.user (self st))
      (MySQL.password (self st)) (MySQL.database (self st)) (MySQL.charset (self st))
      DefaultCursor in
  let opened := trace st ++ [connect_call; conn_cursor c] in
  let committed := opened ++ [cursor_execute cur sql params; conn_commit c] in
  let before_close :=
    if MySQL.is_insert py sql then committed else committed ++ [cursor_fetchall cur] in
  reply W (trace st) connect_call = inr tt ->
  reply W (trace st ++ [connect_call]) (conn_cursor c) = inr tt ->
  exists r st' d,
    MySQL.execute W py sql params st = (r, st') /\
    match reply W (opened ++ d) (cursor_close cur) with
    | inr _ => trace st' = (opened ++ d) ++ [cursor_close cur; conn_close c]
    | inl e => trace st' = (opened ++ d) ++ [cursor_close cur] /\ r = Raise e
    end /\
    (reply W opened (cursor_execute cur sql params) = inr tt ->
     reply W (opened ++ [cursor_execute cur sql params]) (conn_commit c) = inr tt ->
     (forall v, r = Ok v ->
        if MySQL.is_insert py sql
        then v = MySQL.lastrowid (cursor_lastrowid W committed cur)
        else exists rs,
               reply W committed (cursor_fetchall cur) = inr rs /\ v = MySQL.fetched rs) /\
     ((MySQL.is_insert py sql = false ->
       exists rs, reply W committed (cursor_fetchall cur) = inr rs) ->
      reply W before_close (cursor_close cur) = inr tt ->
      reply W (before_close ++ [cursor_close cur]) (conn_close c) = inr tt ->
      exists v, r = Ok v)).
Proof.
  destruct st as [[host user pw db port cs c0 cur0] h l]. simpl.
  intros Hconn Hcur.
  unfold MySQL.execute, MySQL.execute_try, MySQL.execute_except, MySQL.connect, MySQL.close.
  unfold_monad. simpl.
  rewrite Hconn. simpl. rewrite Hcur. simpl.
  replace (length (h ++ [pymysql_connect host port user pw db cs DefaultCursor]))
    with (S (length h)) in * by (rewrite length_app; simpl; lia).
  rewrite <- !app_assoc in *. simpl in *.
  destruct (MySQL.is_insert py sql) eqn:Hins.
  all: run.
  all: rewrite <- ?app_assoc in *; simpl in *.
  all: match goal with
       | H : reply _ (_ ++ _ :: _ :: ?d) (cursor_close _) = _ |- _ =>
           eexists _, _, d; split; [reflexivity|];
           rewrite <- ?app_assoc; simpl; rewrite H
       end.
  all: split; [rewrite <- ?app_assoc; simpl; auto|].
  all: intros He Hc; simplify_eq; same_reply.
  all: split; [intros v Hv; simplify_eq; eauto|].
  all: intros Hf Hcc Hcl; try (destruct (Hf eq_refl) as [rs Hrs]);
    simplify_eq; same_reply; eauto.
Qed.

Lemma execute_value_and_cleanup_witness :
  exists st',
    MySQL.execute calm ascii_py "  INSERT INTO daily (code) VALUES (%s)"
      (Some [VStr "600000"]) (fresh stock_db)
    = (Ok (MySQL.lastrowid 7), st').
Proof.
  edestruct (execute_value_and_cleanup calm ascii_py
               "  INSERT INTO daily (code) VALUES (%s)" (Some [VStr "600000"])
               (fresh stock_db))
    as (r & st' & d & Hrun & _ & Hval);
    [vm_compute; reflexivity | vm_compute; reflexivity |].
  destruct Hval as (Hv & Hret); [vm_compute; reflexivity | vm_compute; reflexivity |].
  destruct Hret as [v Hr];
    [intros H; vm_compute in H; discriminate H
    | vm_compute; reflexivity | vm_compute; reflexivity |].
  specialize (Hv v Hr). vm_compute in Hv. subst v r.
  exists st'. exact Hrun.
Defined.

(** C10 as stated fails: the statement runs and commits, closing the
    cursor raises, and the call ends without closing the connection it
    opened. *)
Lemma cursor_close_failure_skips_conn_close :
  exists st',
    MySQL.execute cursor_close_failing ascii_py "select code from daily" None
      (fresh stock_db) = (Raise lost, st') /\
    trace st' =
      [pymysql_connect (VStr "localhost") (VInt 3306) (VStr "root") (VStr "secret")
         (VStr "stock_daily_data") (VStr "utf8") DefaultCursor;
       conn_cursor 0%nat; cursor_execute 1%nat "select code from daily" None;
       conn_commit 0%nat; cursor_fetchall 1%nat; cursor_close 1%nat] /\
    ~ In (conn_close 0%nat) (trace st').
Proof.
  eexists. split; [vm_compute; reflexivity|]. split; [reflexivity|].
  simpl. intuition discriminate.
Qed.

(** ** Scoped acquisition *)

Section Scoped.
Context (W : World).

Lemma db_enter_inv (st st1 : state DBConnector.t) h :
  DBConnector.__enter__ W st = (Ok h, st1) ->
  DBConnector.connect W st = (Ok tt, st1) /\ h = DBConnector.this.
Proof.
  unfold DBConnector.__enter__, bind, ret.
  destruct h.
  destruct (DBConnector.connect W st) as [[[]|e] s]; intros H; inversion H; subst; auto.
Qed.

Lemma redis_enter_inv (st st1 : state RedisConnector.t) h :
  RedisConnector.__enter__ W st = (Ok h, st1) ->
  RedisConnector.connect W st = (Ok tt, st1) /\
  h = RedisConnector.redis_conn (self st1).
Proof.
  unfold RedisConnector.__enter__, bind, ret, get_self.
  destruct (RedisConnector.connect W st) as [[[]|e] s]; intros H; inversion H; subst; auto.
Qed.

(** Leaving the scope: [__exit__] is one [disconnect()], it returns
    [None], and the outcome of the body stands. *)
Lemma db_with_leave (body : DBConnector.self_ref -> M DBConnector.t unit)
    (st st1 st2 : state DBConnector.t) h r :
  DBConnector.__enter__ W st = (Ok h, st1) ->
  body h st1 = (r, st2) ->
  exists st3,
    DBConnector.disconnect W st2 = (Ok tt, st3) /\
    with_ (DBConnector.__enter__ W) (DBConnector.__exit__ W) body st = (r, st3).
Proof.
  intros He Hb.
  destruct (db_disconnect_spec W st2) as (st3 & Hd & _).
  exists st3. split; [exact Hd|].
  unfold with_, DBConnector.__exit__, bind, ret. rewrite He, Hb, Hd.
  destruct r as [[]|e]; reflexivity.
Qed.

Lemma redis_with_leave (body : option obj -> M RedisConnector.t unit)
    (st st1 st2 : state RedisConnector.t) h r :
  RedisConnector.__enter__ W st = (Ok h, st1) ->
  body h st1 = (r, st2) ->
  exists st3,
    RedisConnector.disconnect W st2 = (Ok tt, st3) /\
    with_ (RedisConnector.__enter__ W) (RedisConnector.__exit__ W) body st = (r, st3).
Proof.
  intros He Hb.
  destruct (redis_disconnect_spec W st2) as (st3 & Hd & _).
  exists st3. split; [exact Hd|].
  unfold with_, RedisConnector.__exit__, bind, ret. rewrite He, Hb, Hd.
  destruct r as [[]|e]; reflexivity.
Qed.

End Scoped.

(** C2.  Entering the scope runs [connect()] and hands over the handle:
    the cache client held in [redis_conn] for the cache session (present,
    with the session connected, when the session was not connected
    before), the connector itself for the SQL session.  Leaving the scope
    runs [disconnect()] once on the state the body left, whether the body
    returned or raised: the calls added after the body are those of one
    teardown, and the outcome of the body, value or exception, is the
    outcome of the block. *)
Theorem scoped_acquisition_disconnects_once (W : World) :
  (forall (body : option obj -> M RedisConnector.t unit)
          (st st1 st2 : state RedisConnector.t) h r,
     RedisConnector.__enter__ W st = (Ok h, st1) ->
     body h st1 = (r, st2) ->
     RedisConnector.connect W st = (Ok tt, st1) /\
     h = RedisConnector.redis_conn (self st1) /\
     (RedisConnector.is_connected (self st) = false ->
      is_Some h /\ RedisConnector.is_connected (self st1) = true) /\
     exists st3,
       RedisConnector.disconnect W st2 = (Ok tt, st3) /\
       trace st3 = trace st2 ++ redis_close_calls (self st2)
                     ++ (if RedisConnector.use_ssh (self st2)
                         then stop_calls W (trace st2 ++ redis_close_calls (self st2))
                                (SSHTunnelManager.tunnel (RedisConnector.base (self st2)))
                         else []) /\
       with_ (RedisConnector.__enter__ W) (RedisConnector.__exit__ W) body st = (r, st3)) /\
  (forall (body : DBConnector.self_ref -> M DBConnector.t unit)
          (st st1 st2 : state DBConnector.t) h r,
     DBConnector.__enter__ W st = (Ok h, st1) ->
     body h st1 = (r, st2) ->
     DBConnector.connect W st = (Ok tt, st1) /\
     h = DBConnector.this /\
     (DBConnector.is_connected (self st) = false ->
      is_Some (DBConnector.conn (self st1)) /\ DBConnector.is_connected (self st1) = true) /\
     exists st3,
       DBConnector.disconnect W st2 = (Ok tt, st3) /\
       trace st3 = trace st2 ++ db_close_calls W (trace st2) (self st2)
                     ++ stop_calls W (trace st2 ++ db_close_calls W (trace st2) (self st2))
                          (SSHTunnelManager.tunnel (DBConnector.base (self st2))) /\
       with_ (DBConnector.__enter__ W) (DBConnector.__exit__ W) body st = (r, st3)).
Proof.
  split; intros body st st1 st2 h r He Hb.
  - destruct (redis_enter_inv W _ _ _ He) as (Hc & ->).
    destruct (redis_with_leave W body _ _ _ _ _ He Hb) as (st3 & Hd & Hw).
    destruct (redis_disconnect_spec W st2) as (st3' & Hd' & _ & _ & _ & Ht & _).
    rewrite Hd in Hd'. injection Hd' as <-.
    repeat split; eauto.
    + apply redis_connect_ok in Hc; [|assumption].
      apply redis_connect_try_ok in Hc as (_ & (c & ->) & _). eauto.
    + apply redis_connect_ok in Hc; [|assumption].
      apply redis_connect_try_ok in Hc as (Hi & _). exact Hi.
  - destruct (db_enter_inv W _ _ _ He) as (Hc & ->).
    destruct (db_with_leave W body _ _ _ _ _ He Hb) as (st3 & Hd & Hw).
    destruct (db_disconnect_spec W st2) as (st3' & Hd' & _ & _ & Ht & _).
    rewrite Hd in Hd'. injection Hd' as <-.
    repeat split; eauto.
    + apply db_connect_ok in Hc; [|assumption].
      apply db_connect_try_ok in Hc as (_ & (c & ->) & _). eauto.
    + apply db_connect_ok in Hc; [|assumption].
      apply db_connect_try_ok in Hc as (Hi & _). exact Hi.
Qed.

Lemma scoped_acquisition_disconnects_once_witness :
  exists st3,
    with_ (RedisConnector.__enter__ calm) (RedisConnector.__exit__ calm) failing_body
      (fresh rank_connector) = (Raise (Exn KeyError "rank"), st3) /\
    trace st3 = trace (snd (RedisConnector.__enter__ calm (fresh rank_connector)))
                  ++ [redis_close 4%nat; tunnel_stop 0%nat].
Proof.
  destruct (proj1 (scoped_acquisition_disconnects_once calm) failing_body
              (fresh rank_connector)
              (snd (RedisConnector.__enter__ calm (fresh rank_connector)))
              (snd (RedisConnector.__enter__ calm (fresh rank_connector)))
              (Some 4%nat) (Raise (Exn KeyError "rank")))
    as (_ & _ & _ & st3 & _ & Ht & Hw).
  - vm_compute. reflexivity.
  - reflexivity.
  - exists st3. split; [exact Hw|]. rewrite Ht. vm_compute. reflexivity.
Defined.


(** * Further properties of the code *)

Section Frames.
Context (W : World).

(** What every run of the [try] suite of [connect] keeps and changes. *)
Lemma db_connect_try_frame (st st' : state DBConnector.t) r :
  DBConnector.connect_try W st = (r, st') ->
  DBConnector.db_config (self st') = DBConnector.db_config (self st) /\
  DBConnector.use_ssh (self st') = DBConnector.use_ssh (self st) /\
  SSHTunnelManager.ssh_config (DBConnector.base (self st'))
  = SSHTunnelManager.ssh_config (DBConnector.base (self st)) /\
  (DBConnector.use_ssh (self st) = false ->
   SSHTunnelManager.tunnel (DBConnector.base (self st'))
   = SSHTunnelManager.tunnel (DBConnector.base (self st))) /\
  match r with
  | Ok _ => DBConnector.is_connected (self st') = true /\
            is_Some (DBConnector.conn (self st'))
  | Raise _ => DBConnector.is_connected (self st') = DBConnector.is_connected (self st)
  end.
Proof.
  destruct st as [[[cfg tun] ssh dbc c ic] h l].
  unfold DBConnector.connect_try, DBConnector.connect_address,
    DBConnector.connect_backend, DBConnector.connect_probe,
    SSHTunnelManager._setup_ssh_tunnel.
  unfold_monad. simpl.
  destruct ssh; simpl.
  all: run; intros [= <- <-]; simpl; repeat split; eauto; congruence.
Qed.

Lemma db_disconnect_frame (st st' : state DBConnector.t) r :
  DBConnector.disconnect W st = (r, st') ->
  DBConnector.db_config (self st') = DBConnector.db_config (self st) /\
  DBConnector.use_ssh (self st') = DBConnector.use_ssh (self st) /\
  SSHTunnelManager.ssh_config (DBConnector.base (self st'))
  = SSHTunnelManager.ssh_config (DBConnector.base (self st)) /\
  (SSHTunnelManager.tunnel (DBConnector.base (self st')) = None \/
   SSHTunnelManager.tunnel (DBConnector.base (self st'))
   = SSHTunnelManager.tunnel (DBConnector.base (self st))).
Proof.
  destruct st as [[[cfg tun] ssh dbc c ic] h l].
  unfold DBConnector.disconnect. unfold_monad. simpl.
  destruct c as [c|]; destruct tun as [tun|]; simpl.
  all: run; intros [= <- <-]; simpl; repeat split; eauto.
Qed.

End Frames.

Section Whole.
Context (W : World).

Lemma on_execute_error_self {A} msg e (st st' : state DBConnector.t) (r : result A) :
  DBConnector.on_execute_error W msg e st = (r, st') -> self st' = self st.
Proof.
  unfold DBConnector.on_execute_error. unfold_monad.
  run; intros [= <- <-]; reflexivity.
Qed.

Lemma db_execute_query_self sql params (st st' : state DBConnector.t) r :
  DBConnector.execute_query W sql params st = (r, st') -> self st' = self st.
Proof.
  unfold DBConnector.execute_query, bind, get_self, raise, try_except.
  destruct (negb _ || _); [intros [= <- <-]; reflexivity|].
  destruct (DBConnector.execute_query_try W sql params st) as [[a|e] st1] eqn:Htry.
  - intros [= <- <-]. eapply execute_query_try_self, Htry.
  - intros Hx. apply on_execute_error_self in Hx. rewrite Hx.
    eapply execute_query_try_self, Htry.
Qed.

Lemma db_execute_update_self sql params (st st' : state DBConnector.t) r :
  DBConnector.execute_update W sql params st = (r, st') -> self st' = self st.
Proof.
  unfold DBConnector.execute_update, bind, get_self, raise, try_except.
  destruct (negb _ || _); [intros [= <- <-]; reflexivity|].
  destruct (DBConnector.execute_update_try W sql params st) as [[a|e] st1] eqn:Htry.
  - intros [= <- <-]. eapply execute_update_try_self, Htry.
  - intros Hx. apply on_execute_error_self in Hx. rewrite Hx.
    eapply execute_update_try_self, Htry.
Qed.

(** [connect] as a whole: the setup is kept, and the two facts the other
    methods rely on hold afterwards if they held before. *)
Lemma db_connect_whole (st st' : state DBConnector.t) r :
  DBConnector.connect W st = (r, st') ->
  (DBConnector.db_config (self st') = DBConnector.db_config (self st) /\
   DBConnector.use_ssh (self st') = DBConnector.use_ssh (self st) /\
   SSHTunnelManager.ssh_config (DBConnector.base (self st'))
   = SSHTunnelManager.ssh_config (DBConnector.base (self st))) /\
  ((DBConnector.is_connected (self st) = true -> is_Some (DBConnector.conn (self st))) ->
   (DBConnector.is_connected (self st') = true -> is_Some (DBConnector.conn (self st')))) /\
  ((DBConnector.use_ssh (self st) = false ->
    SSHTunnelManager.tunnel (DBConnector.base (self st)) = None) ->
   (DBConnector.use_ssh (self st') = false ->
    SSHTunnelManager.tunnel (DBConnector.base (self st')) = None)).
Proof.
  unfold DBConnector.connect, bind, get_self, try_except.
  destruct (DBConnector.is_connected (self st)) eqn:Hc.
  { intros [= <- <-]. simpl. auto. }
  destruct (DBConnector.connect_try W st) as [[[]|e] st1] eqn:Htry.
  - intros [= <- <-].
    destruct (db_connect_try_frame W _ _ _ Htry) as (Hd & Hu & Hs & Ht & Hi & Hconn).
    repeat split; auto. intros Hw Hu'. rewrite Hu in Hu'. rewrite Ht; auto.
  - destruct (db_connect_try_frame W _ _ _ Htry) as (Hd & Hu & Hs & Ht & Hi).
    unfold DBConnector.connect_except.
    destruct (isinstance e DBConnector.handled_connect).
    + unfold bind, logger_exception, logger, raise.
      match goal with
      | |- context [DBConnector.disconnect W ?s] =>
          destruct (db_disconnect_spec W s) as (st2 & Hrun & Hconn & Hi2 & _);
          pose proof (db_disconnect_frame W _ _ _ Hrun) as (Hd2 & Hu2 & Hs2 & Ht2)
      end.
      rewrite Hrun. intros [= <- <-]. simpl in *.
      repeat split; try congruence.
      intros Hw Hu'. destruct Ht2 as [Ht2|Ht2]; [exact Ht2|].
      rewrite Ht2, Ht; [apply Hw|]; congruence.
    + intros [= <- <-]. repeat split; auto; try congruence.
      intros Hw Hu'. rewrite Ht; [apply Hw|]; congruence.
Qed.

End Whole.

Section RedisWhole.
Context (W : World).

Lemma redis_connect_try_keeps (st st' : state RedisConnector.t) r :
  RedisConnector.connect_try W st = (r, st') ->
  SSHTunnelManager.ssh_config (RedisConnector.base (self st'))
  = SSHTunnelManager.ssh_config (RedisConnector.base (self st)) /\
  RedisConnector.db (RedisConnector.redis_config (self st'))
  = RedisConnector.db (RedisConnector.redis_config (self st)) /\
  RedisConnector.password (RedisConnector.redis_config (self st'))
  = RedisConnector.password (RedisConnector.redis_config (self st)) /\
  (RedisConnector.use_ssh (self st) = false ->
   RedisConnector.redis_config (self st') = RedisConnector.redis_config (self st)) /\
  match r with
  | Ok _ => RedisConnector.is_connected (self st') = true /\
            is_Some (RedisConnector.redis_conn (self st'))
  | Raise _ => RedisConnector.is_connected (self st')
               = RedisConnector.is_connected (self st)
  end.
Proof.
  destruct st as [[[cfg tun] ssh rc c ic] h l].
  unfold RedisConnector.connect_try, RedisConnector.connect_address,
    RedisConnector.connect_client, RedisConnector.connect_probe,
    SSHTunnelManager._setup_ssh_tunnel.
  unfold_monad. simpl.
  destruct ssh; simpl.
  all: run; intros [= <- <-]; simpl; repeat split; eauto; congruence.
Qed.

Lemma redis_disconnect_frame (st st' : state RedisConnector.t) r :
  RedisConnector.disconnect W st = (r, st') ->
  RedisConnector.redis_config (self st') = RedisConnector.redis_config (self st) /\
  RedisConnector.use_ssh (self st') = RedisConnector.use_ssh (self st) /\
  SSHTunnelManager.ssh_config (RedisConnector.base (self st'))
  = SSHTunnelManager.ssh_config (RedisConnector.base (self st)) /\
  (SSHTunnelManager.tunnel (RedisConnector.base (self st')) = None \/
   SSHTunnelManager.tunnel (RedisConnector.base (self st'))
   = SSHTunnelManager.tunnel (RedisConnector.base (self st))).
Proof.
  destruct st as [[[cfg tun] ssh rc c ic] h l].
  unfold RedisConnector.disconnect, SSHTunnelManager._close_ssh_tunnel.
  unfold_monad. simpl.
  destruct c as [c|]; destruct ssh; destruct tun as [tun|]; simpl.
  all: run; intros [= <- <-]; simpl; repeat split; eauto.
Qed.

Lemma redis_connect_whole (st st' : state RedisConnector.t) r :
  RedisConnector.connect W st = (r, st') ->
  (RedisConnector.use_ssh (self st') = RedisConnector.use_ssh (self st) /\
   SSHTunnelManager.ssh_config (RedisConnector.base (self st'))
   = SSHTunnelManager.ssh_config (RedisConnector.base (self st)) /\
   RedisConnector.db (RedisConnector.redis_config (self st'))
   = RedisConnector.db (RedisConnector.redis_config (self st)) /\
   RedisConnector.password (RedisConnector.redis_config (self st'))
   = RedisConnector.password (RedisConnector.redis_config (self st)) /\
   (RedisConnector.use_ssh (self st) = false ->
    RedisConnector.redis_config (self st') = RedisConnector.redis_config (self st))) /\
  ((RedisConnector.is_connected (self st) = true ->
    is_Some (RedisConnector.redis_conn (self st))) ->
   (RedisConnector.is_connected (self st') = true ->
    is_Some (RedisConnector.redis_conn (self st')))) /\
  ((RedisConnector.use_ssh (self st) = false ->
    SSHTunnelManager.tunnel (RedisConnector.base (self st)) = None) ->
   (RedisConnector.use_ssh (self st') = false ->
    SSHTunnelManager.tunnel (RedisConnector.base (self st')) = None)).
Proof.
  unfold RedisConnector.connect, bind, get_self, try_except.
  destruct (RedisConnector.is_connected (self st)) eqn:Hc.
  { intros [= <- <-]. simpl. auto 10. }
  destruct (RedisConnector.connect_try W st) as [[[]|e] st1] eqn:Htry.
  - intros [= <- <-].
    destruct (redis_connect_try_keeps _ _ _ Htry) as (Hs & Hd & Hp & Hk & Hi & Hconn).
    destruct (redis_connect_try_frame W _ _ _ Htry) as (Hu & Ht).
    repeat split; auto. intros Hw Hu'. rewrite Hu in Hu'. rewrite Ht; auto.
  - destruct (redis_connect_try_keeps _ _ _ Htry) as (Hs & Hd & Hp & Hk & Hi).
    destruct (redis_connect_try_frame W _ _ _ Htry) as (Hu & Ht).
    unfold RedisConnector.connect_except.
    destruct (isinstance e RedisConnector.handled).
    + unfold bind, logger_exception, logger, raise.
      match goal with
      | |- context [RedisConnector.disconnect W ?s] =>
          destruct (redis_disconnect_spec W s) as (st2 & Hrun & Hconn & Hi2 & _);
          pose proof (redis_disconnect_frame _ _ _ Hrun) as (Hd2 & Hu2 & Hs2 & Ht2)
      end.
      rewrite Hrun. intros [= <- <-]. simpl in *.
      repeat split; try congruence.
      * intros Hf. rewrite Hd2. auto.
      * intros Hw Hu'. destruct Ht2 as [Ht2|Ht2]; [exact Ht2|].
        rewrite Ht2, Ht; [apply Hw|]; congruence.
    + intros [= <- <-]. repeat split; auto; try congruence.
      intros Hw Hu'. rewrite Ht; [apply Hw|]; congruence.
Qed.

End RedisWhole.

(** What a constructor that returns has made. *)
Lemma db_init_ok py config ssh (st st' : state unit) s :
  DBConnector.__init__ py config ssh st = (Ok s, st') ->
  st' = st /\
  DBConnector.is_connected s = false /\
  DBConnector.conn s = None /\
  DBConnector.use_ssh s = ssh /\
  DBConnector.base s = SSHTunnelManager.Build config None.
Proof.
  unfold DBConnector.__init__, py_lower, py_int. unfold_monad.
  run_to_outcome; intros [= <- <-]; auto.
Qed.

Lemma redis_init_ok py config ssh (st st' : state unit) s :
  RedisConnector.__init__ py config ssh st = (Ok s, st') ->
  st' = st /\
  RedisConnector.is_connected s = false /\
  RedisConnector.redis_conn s = None /\
  RedisConnector.use_ssh s = ssh /\
  RedisConnector.base s = SSHTunnelManager.Build config None.
Proof.
  unfold RedisConnector.__init__, py_lower, py_int. unfold_monad.
  run_to_outcome; intros [= <- <-]; auto.
Qed.

(** X1.  No method changes the setup of a session.  For the SQL session
    [connect], [disconnect], [execute_query] and [execute_update] leave
    [db_config], [use_ssh] and the SSH configuration as they were, whatever
    the outcome.  For the cache session [connect] and [disconnect] leave
    [use_ssh], the SSH configuration and the [db] and [password] of
    [redis_config] as they were, and the whole of [redis_config] when no
    tunnel is requested. *)
Theorem setup_is_kept (W : World) :
  (forall (st st' : state DBConnector.t),
     let kept :=
       DBConnector.db_config (self st') = DBConnector.db_config (self st) /\
       DBConnector.use_ssh (self st') = DBConnector.use_ssh (self st) /\
       SSHTunnelManager.ssh_config (DBConnector.base (self st'))
       = SSHTunnelManager.ssh_config (DBConnector.base (self st)) in
     (forall r, DBConnector.connect W st = (r, st') -> kept) /\
     (forall r, DBConnector.disconnect W st = (r, st') -> kept) /\
     (forall sql params r, DBConnector.execute_query W sql params st = (r, st') -> kept) /\
     (forall sql params r, DBConnector.execute_update W sql params st = (r, st') -> kept)) /\
  (forall (st st' : state RedisConnector.t),
     let kept :=
       RedisConnector.use_ssh (self st') = RedisConnector.use_ssh (self st) /\
       SSHTunnelManager.ssh_config (RedisConnector.base (self st'))
       = SSHTunnelManager.ssh_config (RedisConnector.base (self st)) /\
       RedisConnector.db (RedisConnector.redis_config (self st'))
       = RedisConnector.db (RedisConnector.redis_config (self st)) /\
       RedisConnector.password (RedisConnector.redis_config (self st'))
       = RedisConnector.password (RedisConnector.redis_config (self st)) /\
       (RedisConnector.use_ssh (self st) = false ->
        RedisConnector.redis_config (self st') = RedisConnector.redis_config (self st)) in
     (forall r, RedisConnector.connect W st = (r, st') -> kept) /\
     (forall r, RedisConnector.disconnect W st = (r, st') -> kept)).
Proof.
  split; intros st st' kept; subst kept.
  - split; [|split; [|split]].
    + intros r H. apply db_connect_whole in H as (H & _). exact H.
    + intros r H. apply db_disconnect_frame in H as (? & ? & ? & _). auto.
    + intros sql params r H. apply db_execute_query_self in H. rewrite H. auto.
    + intros sql params r H. apply db_execute_update_self in H. rewrite H. auto.
  - split.
    + intros r H. apply redis_connect_whole in H as (H & _). exact H.
    + intros r H. apply redis_disconnect_frame in H as (Hc & ? & ? & _).
      rewrite Hc. auto.
Qed.

Lemma setup_is_kept_witness :
  DBConnector.db_config (self (gw_connected calm)) = DBConnector.db_config gw_connector /\
  DBConnector.use_ssh (self (gw_connected calm)) = false /\
  SSHTunnelManager.ssh_config (DBConnector.base (self (gw_connected calm))) = gw_config.
Proof.
  apply (proj1 (proj1 (setup_is_kept calm) (fresh gw_connector) (gw_connected calm))
           (Ok tt)).
  vm_compute. reflexivity.
Defined.

(** X2.  A session that says it is connected holds a connection, and a
    session without tunneling holds no tunnel: both facts hold for an
    object the constructor returns, and every method keeps them, whatever
    its outcome. *)
Theorem connected_means_handle (W : World) (py : Builtins) :
  let db_inv (s : DBConnector.t) :=
    (DBConnector.is_connected s = true -> is_Some (DBConnector.conn s)) /\
    (DBConnector.use_ssh s = false -> SSHTunnelManager.tunnel (DBConnector.base s) = None) in
  let redis_inv (s : RedisConnector.t) :=
    (RedisConnector.is_connected s = true -> is_Some (RedisConnector.redis_conn s)) /\
    (RedisConnector.use_ssh s = false ->
     SSHTunnelManager.tunnel (RedisConnector.base s) = None) in
  ((forall config ssh st s st',
      DBConnector.__init__ py config ssh st = (Ok s, st') -> db_inv s) /\
   (forall st r st',
      db_inv (self st) -> DBConnector.connect W st = (r, st') -> db_inv (self st')) /\
   (forall st r st',
      db_inv (self st) -> DBConnector.disconnect W st = (r, st') -> db_inv (self st')) /\
   (forall sql params st r st',
      db_inv (self st) -> DBConnector.execute_query W sql params st = (r, st') ->
      db_inv (self st')) /\
   (forall sql params st r st',
      db_inv (self st) -> DBConnector.execute_update W sql params st = (r, st') ->
      db_inv (self st'))) /\
  ((forall config ssh st s st',
      RedisConnector.__init__ py config ssh st = (Ok s, st') -> redis_inv s) /\
   (forall st r st',
      redis_inv (self st) -> RedisConnector.connect W st = (r, st') ->
      redis_inv (self st')) /\
   (forall st r st',
      redis_inv (self st) -> RedisConnector.disconnect W st = (r, st') ->
      redis_inv (self st'))).
Proof.
  intros db_inv redis_inv. subst db_inv redis_inv. simpl.
  split; [split; [|split; [|split; [|split]]] | split; [|split]].
  - intros config ssh st s st' H.
    apply db_init_ok in H as (_ & Hi & _ & _ & Hb). rewrite Hi, Hb.
    split; [discriminate | reflexivity].
  - intros st r st' [H1 H2] H.
    apply db_connect_whole in H as (_ & Hc & Ht). auto.
  - intros st r st' [H1 H2] H.
    destruct (db_disconnect_spec W st) as (st2 & Hrun & _ & Hi & _).
    pose proof (db_disconnect_frame W _ _ _ H) as (_ & Hu & _ & Ht).
    rewrite Hrun in H. injection H as <- <-.
    split; [congruence|]. intros Hu'.
    destruct Ht as [Ht|Ht]; [exact Ht|]. rewrite Ht. apply H2. congruence.
  - intros sql params st r st' Hinv H.
    apply db_execute_query_self in H. rewrite H. exact Hinv.
  - intros sql params st r st' Hinv H.
    apply db_execute_update_self in H. rewrite H. exact Hinv.
  - intros config ssh st s st' H.
    apply redis_init_ok in H as (_ & Hi & _ & _ & Hb). rewrite Hi, Hb.
    split; [discriminate | reflexivity].
  - intros st r st' [H1 H2] H.
    apply redis_connect_whole in H as (_ & Hc & Ht). auto.
  - intros st r st' [H1 H2] H.
    destruct (redis_disconnect_spec W st) as (st2 & Hrun & _ & Hi & _).
    pose proof (redis_disconnect_frame W _ _ _ H) as (_ & Hu & _ & Ht).
    rewrite Hrun in H. injection H as <- <-.
    split; [congruence|]. intros Hu'.
    destruct Ht as [Ht|Ht]; [exact Ht|]. rewrite Ht. apply H2. congruence.
Qed.

Lemma connected_means_handle_witness :
  is_Some (DBConnector.conn (self (gw_connected calm))).
Proof.
  destruct (connected_means_handle calm ascii_py) as ((_ & Hconnect & _) & _).
  apply (Hconnect (fresh gw_connector) (Ok tt) (gw_connected calm)).
  - split; [discriminate | reflexivity].
  - vm_compute. reflexivity.
  - vm_compute. reflexivity.
Defined.

(** Which of the listed calls carries an address. *)
Ltac addressed :=
  let c := fresh "c" in let a := fresh "a" in
  let Hin := fresh "Hin" in let Ha := fresh "Ha" in
  intros c a Hin Ha; simpl in Hin;
  repeat (destruct Hin as [<-|Hin]; [simpl in Ha; simplify_eq; try reflexivity|]);
  try contradiction.


Lemma redis_connect_address_facts (W : World) (st st' : state RedisConnector.t) :
  RedisConnector.is_connected (self st) = false ->
  RedisConnector.connect W st = (Ok tt, st') ->
  let cfg := RedisConnector.redis_config (self st) in
  let cfg' := RedisConnector.redis_config (self st') in
  exists d, trace st' = trace st ++ d /\
    if RedisConnector.use_ssh (self st) then
      exists tun lp h,
        SSHTunnelManager.tunnel (RedisConnector.base (self st')) = Some tun /\
        In (tunnel_start tun) d /\
        (forall c a, In c d -> backend_address c = Some a ->
                     a = (VStr "127.0.0.1", VInt lp)) /\
        (forall c a, In c d -> forwarder_remote c = Some a ->
                     a = (RedisConnector.host cfg, RedisConnector.port cfg)) /\
        RedisConnector.host cfg' = VStr "127.0.0.1" /\
        RedisConnector.port cfg' = lp /\
        reply W h (tunnel_local_bind_port tun) = inr lp
    else
      (forall c a, In c d -> backend_address c = Some a ->
                   a = (RedisConnector.host cfg, VInt (RedisConnector.port cfg))) /\
      (forall c, In c d -> forwarder_remote c = None) /\
      cfg' = cfg.
Proof.
  intros Hc Hrun. apply redis_connect_ok in Hrun; [|exact Hc]. clear Hc. revert Hrun.
  destruct st as [[[cfg tun] ssh rc c ic] h l].
  unfold RedisConnector.connect_try, RedisConnector.connect_address,
    RedisConnector.connect_client, RedisConnector.connect_probe,
    SSHTunnelManager._setup_ssh_tunnel.
  unfold_monad. simpl.
  destruct ssh; simpl.
  all: run_to_outcome.
  all: intros [= <-]; simpl; rewrite <- ?app_assoc; simpl.
  all: eexists; split; [reflexivity|].
  all: try (eexists _, _, _; split; [reflexivity|]; split; [simpl; tauto|]).
  all: split; [addressed|].
  all: try (split; [addressed|]; split; [reflexivity|]; split; [reflexivity|eassumption]).
  all: split; [|reflexivity].
  all: intros c0 Hin; simpl in Hin;
    repeat (destruct Hin as [<-|Hin]; [reflexivity|]); contradiction.
Qed.


Section Forwarding.
Context (W : World).

(** A teardown asks for no tunnel. *)
Lemma redis_teardown_forwards_nothing (s : RedisConnector.t) (h : list call) c :
  In c (redis_close_calls s
        ++ (if RedisConnector.use_ssh s
            then stop_calls W h (SSHTunnelManager.tunnel (RedisConnector.base s))
            else [])) ->
  forwarder_remote c = None.
Proof.
  unfold redis_close_calls, stop_calls.
  repeat case_step; simpl; intuition (subst; reflexivity).
Qed.

(** Whatever the outcome, a tunnel that the [try] suite asks for is
    forwarded to the host and port that [redis_config] holds at that
    moment. *)
Lemma redis_connect_try_forwards (st st' : state RedisConnector.t) r :
  RedisConnector.connect_try W st = (r, st') ->
  exists d, trace st' = trace st ++ d /\
    forall c a, In c d -> forwarder_remote c = Some a ->
      a = (RedisConnector.host (RedisConnector.redis_config (self st)),
           RedisConnector.port (RedisConnector.redis_config (self st))).
Proof.
  destruct st as [[[cfg tun] ssh rc c ic] h l].
  unfold RedisConnector.connect_try, RedisConnector.connect_address,
    RedisConnector.connect_client, RedisConnector.connect_probe,
    SSHTunnelManager._setup_ssh_tunnel.
  unfold_monad. simpl.
  destruct ssh; simpl.
  all: run; intros [= <- <-]; simpl; rewrite <- ?app_assoc; simpl.
  all: first [ eexists; split; [reflexivity|]; addressed
             | exists []; split; [rewrite app_nil_r; reflexivity|]; intros ? ? [] ].
Qed.

Lemma redis_connect_forwards (st st' : state RedisConnector.t) r :
  RedisConnector.connect W st = (r, st') ->
  exists d, trace st' = trace st ++ d /\
    forall c a, In c d -> forwarder_remote c = Some a ->
      a = (RedisConnector.host (RedisConnector.redis_config (self st)),
           RedisConnector.port (RedisConnector.redis_config (self st))).
Proof.
  unfold RedisConnector.connect, bind, get_self, try_except.
  destruct (RedisConnector.is_connected (self st)) eqn:Hc.
  { intros [= <- <-]. exists []. split; [simpl; rewrite app_nil_r; reflexivity|].
    intros ? ? []. }
  destruct (RedisConnector.connect_try W st) as [[[]|e] st1] eqn:Htry.
  - intros [= <- <-]. eapply redis_connect_try_forwards, Htry.
  - destruct (redis_connect_try_forwards _ _ _ Htry) as (d & Ht & Hd).
    unfold RedisConnector.connect_except.
    destruct (isinstance e RedisConnector.handled).
    + unfold bind, logger_exception, logger, raise.
      match goal with
      | |- context [RedisConnector.disconnect W ?s] =>
          destruct (redis_disconnect_spec W s) as (st2 & Hrun & _ & _ & _ & Ht2 & _)
      end.
      rewrite Hrun. intros [= <- <-]. simpl in Ht2. rewrite Ht2, Ht.
      eexists. split; [rewrite <- app_assoc; reflexivity|].
      intros c a Hin Ha. apply in_app_iff in Hin as [Hin|Hin]; [eauto|].
      apply redis_teardown_forwards_nothing in Hin. congruence.
    + intros [= <- <-]. eauto.
Qed.

End Forwarding.

(** X5.  The cache session with tunneling, connected, disconnected and
    connected again: any tunnel the second [connect()] asks for is
    forwarded to 127.0.0.1, the address that the first [connect()] wrote
    into [redis_config], not to the host of the configuration. *)
Theorem redis_reconnect_forwards_to_loopback (W : World)
    (st st1 st2 st3 : state RedisConnector.t) r1 r2 :
  RedisConnector.use_ssh (self st) = true ->
  RedisConnector.is_connected (self st) = false ->
  RedisConnector.connect W st = (Ok tt, st1) ->
  RedisConnector.disconnect W st1 = (r1, st2) ->
  RedisConnector.connect W st2 = (r2, st3) ->
  exists d, trace st3 = trace st2 ++ d /\
    forall c a, In c d -> forwarder_remote c = Some a -> fst a = VStr "127.0.0.1".
Proof.
  intros Hssh Hc H1 H2 H3.
  destruct (redis_connect_address_facts W st st1 Hc H1) as (d1 & _ & Hpost).
  rewrite Hssh in Hpost. destruct Hpost as (tun & lp & h & _ & _ & _ & _ & Hhost & _).
  apply redis_disconnect_frame in H2 as (Hcfg & _).
  destruct (redis_connect_forwards W _ _ _ H3) as (d & Ht & Hd).
  exists d. split; [exact Ht|].
  intros c a Hin Ha. rewrite (Hd c a Hin Ha). simpl. rewrite Hcfg. exact Hhost.
Qed.

(** X6.  The constructors check [ssh_host] and [ssh_username] only.  With
    tunneling requested, no private key configured, and [ssh_port] absent
    (or [ssh_port] present and [ssh_password] absent), [connect()] raises
    [KeyError] for that key and leaves the session and the trace as they
    were: no tunnel is created and nothing is logged. *)
Theorem tunnel_key_missing_at_connect (W : World) (k : string) (cfg : gmap string value) :
  truthy (dict_get cfg "ssh_pkey_path") = false ->
  is_Some (cfg !! "ssh_host") ->
  is_Some (cfg !! "ssh_username") ->
  (k = "ssh_port" \/ (k = "ssh_password" /\ is_Some (cfg !! "ssh_port"))) ->
  cfg !! k = None ->
  (forall st : state DBConnector.t,
     SSHTunnelManager.ssh_config (DBConnector.base (self st)) = cfg ->
     DBConnector.use_ssh (self st) = true ->
     DBConnector.is_connected (self st) = false ->
     DBConnector.connect W st = (Raise (Exn KeyError k), st)) /\
  (forall st : state RedisConnector.t,
     SSHTunnelManager.ssh_config (RedisConnector.base (self st)) = cfg ->
     RedisConnector.use_ssh (self st) = true ->
     RedisConnector.is_connected (self st) = false ->
     RedisConnector.connect W st = (Raise (Exn KeyError k), st)).
Proof.
  intros Hkey [vh Hh] [vu Hu] Hk Hnone.
  split; intros [[[cfg0 tun] ssh c0 c ic] h l]; simpl; intros -> -> ->.
  - unfold DBConnector.connect, DBConnector.connect_try, DBConnector.connect_address,
      DBConnector.connect_except, SSHTunnelManager._setup_ssh_tunnel.
    unfold_monad. simpl. rewrite Hkey, Hh. simpl.
    destruct Hk as [->|[-> [vp Hp]]].
    + rewrite Hnone. reflexivity.
    + rewrite Hp, Hu, Hnone. reflexivity.
  - unfold RedisConnector.connect, RedisConnector.connect_try,
      RedisConnector.connect_address, RedisConnector.connect_except,
      SSHTunnelManager._setup_ssh_tunnel.
    unfold_monad. simpl. rewrite Hkey, Hh. simpl.
    destruct Hk as [->|[-> [vp Hp]]].
    + rewrite Hnone. reflexivity.
    + rewrite Hp, Hu, Hnone. reflexivity.
Qed.

Lemma tunnel_key_missing_at_connect_witness :
  DBConnector.connect calm (fresh portless_connector)
    = (Raise (Exn KeyError "ssh_port"), fresh portless_connector).
Proof.
  refine (proj1 (tunnel_key_missing_at_connect calm "ssh_port"
                   (delete "ssh_port" gw_tunnel_config) _ _ _ _ _)
            (fresh portless_connector) _ _ _).
  - vm_compute. reflexivity.
  - vm_compute. eauto.
  - vm_compute. eauto.
  - left. reflexivity.
  - vm_compute. reflexivity.
  - reflexivity.
  - reflexivity.
  - reflexivity.
Defined.

(** X7.  With a [db_config] type other than "mysql" and "postgresql"
    [connect()] always raises, never makes a backend connect and leaves the
    session not connected.  On a session without tunneling and without a
    tunnel the error is the [ValueError] for the unsupported type and no
    library call is made at all. *)
Theorem unknown_backend_is_refused (W : World) (st : state DBConnector.t) :
  String.eqb (DBConnector.type (DBConnector.db_config (self st))) "mysql" = false ->
  String.eqb (DBConnector.type (DBConnector.db_config (self st))) "postgresql" = false ->
  DBConnector.is_connected (self st) = false ->
  exists e st' d,
    DBConnector.connect W st = (Raise e, st') /\
    trace st' = trace st ++ d /\
    count is_backend_connect d = 0%nat /\
    DBConnector.is_connected (self st') = false /\
    (DBConnector.use_ssh (self st) = false ->
     SSHTunnelManager.tunnel (DBConnector.base (self st)) = None ->
     e = Exn ValueError "不支持的数据库类型: " /\ d = [] /\
     DBConnector.conn (self st') = None).
Proof.
  intros Hm Hp Hc.
  destruct st as [[[cfg tun] ssh dbc c ic] h l]. simpl in *. subst ic.
  unfold DBConnector.connect, DBConnector.connect_try, DBConnector.connect_address,
    DBConnector.connect_backend, DBConnector.connect_except, DBConnector.disconnect,
    SSHTunnelManager._setup_ssh_tunnel.
  unfold_monad. simpl.
  destruct ssh; simpl.
  all: repeat (case_step; try congruence).
  all: rewrite <- ?app_assoc; simpl.
  all: first [ eexists _, _, _; split; [reflexivity|]; split; [reflexivity|]
             | eexists _, _, []; split; [reflexivity|]; split;
               [simpl; rewrite app_nil_r; reflexivity|] ].
  all: simpl; repeat split; try reflexivity; try discriminate.
  all: try (intros _ Ht; discriminate Ht).
Qed.

Lemma unknown_backend_is_refused_witness :
  exists st',
    DBConnector.connect calm (fresh oracle_connector)
      = (Raise (Exn ValueError "不支持的数据库类型: "), st') /\
    trace st' = [].
Proof.
  destruct (unknown_backend_is_refused calm (fresh oracle_connector))
    as (e & st' & d & Hrun & Ht & _ & _ & Hfresh); try reflexivity.
  destruct Hfresh as (-> & -> & _); try reflexivity.
  exists st'. split; [exact Hrun | exact Ht].
Defined.

(** X8.  An [execute_query] that returns was run on a connected session;
    it made a cursor, executed the statement with [params or ()], fetched
    all rows, closed the cursor, in that order and nothing else, and
    returns the rows fetched.  Whatever its outcome, [execute_query] never
    commits. *)
Theorem execute_query_returns_fetched_rows (W : World) sql params
    (st st' : state DBConnector.t) :
  (forall rs,
     DBConnector.execute_query W sql params st = (Ok rs, st') ->
     exists c,
       DBConnector.is_connected (self st) = true /\
       DBConnector.conn (self st) = Some c /\
       let cur := length (trace st) in
       let stmt := cursor_execute cur sql (Some (default [] params)) in
       trace st' = trace st ++ [conn_cursor c; stmt; cursor_fetchall cur; cursor_close cur] /\
       reply W (trace st ++ [conn_cursor c; stmt]) (cursor_fetchall cur) = inr rs) /\
  (forall r,
     DBConnector.execute_query W sql params st = (r, st') ->
     exists d, trace st' = trace st ++ d /\ forall c, ~ In (conn_commit c) d).
Proof.
  destruct st as [[b ssh dbc c ic] h l].
  unfold DBConnector.execute_query, DBConnector.execute_query_try,
    DBConnector.on_execute_error, DBConnector.params_or_empty.
  unfold_monad. simpl.
  split.
  - intros rs. destruct ic; destruct c as [c|]; simpl; try discriminate.
    run_to_outcome. intros [= <- <-].
    exists c. simpl. rewrite <- ?app_assoc in *. simpl in *.
    repeat split; try reflexivity; assumption.
  - intros r. run; intros [= <- <-]; simpl; rewrite <- ?app_assoc; simpl.
    all: first [ eexists; split; [reflexivity|]
               | exists []; split; [rewrite app_nil_r; reflexivity|] ].
    all: intros c1 Hin; simpl in Hin; intuition discriminate.
Qed.

(** X9.  An [execute_update] that returns made a cursor, executed the
    statement, committed and closed the cursor, in that order and nothing
    else, and returns the [rowcount] read between the statement and the
    commit.  Whatever the outcome, the call adds a commit only on the
    connection of the session and only after the cursor was obtained and
    the statement executed without error. *)
Theorem execute_update_commits_then_returns_rowcount (W : World) sql params
    (st st' : state DBConnector.t) :
  (forall n,
     DBConnector.execute_update W sql params st = (Ok n, st') ->
     exists c,
       DBConnector.is_connected (self st) = true /\
       DBConnector.conn (self st) = Some c /\
       let cur := length (trace st) in
       let stmt := cursor_execute cur sql (Some (default [] params)) in
       trace st' = trace st ++ [conn_cursor c; stmt; conn_commit c; cursor_close cur] /\
       n = cursor_rowcount W (trace st ++ [conn_cursor c; stmt]) cur) /\
  (forall r,
     DBConnector.execute_update W sql params st = (r, st') ->
     exists d,
       trace st' = trace st ++ d /\
       forall c,
         In (conn_commit c) d ->
         DBConnector.conn (self st) = Some c /\
         reply W (trace st) (conn_cursor c) = inr tt /\
         reply W (trace st ++ [conn_cursor c])
           (cursor_execute (length (trace st)) sql (Some (default [] params))) = inr tt).
Proof.
  destruct st as [[b ssh dbc c ic] h l].
  unfold DBConnector.execute_update, DBConnector.execute_update_try,
    DBConnector.on_execute_error, DBConnector.params_or_empty.
  unfold_monad. simpl.
  split.
  - intros n. destruct ic; destruct c as [c|]; simpl; try discriminate.
    run_to_outcome. intros [= <- <-].
    exists c. simpl. rewrite <- ?app_assoc in *. simpl in *.
    repeat split; reflexivity.
  - intros r. run; intros [= <- <-]; simpl; rewrite <- ?app_assoc; simpl.
    all: first [ eexists; split; [reflexivity|]
               | exists []; split; [rewrite app_nil_r; reflexivity|] ].
    all: intros c1 Hin; simpl in Hin; intuition (try discriminate); simplify_eq.
    all: repeat match goal with u : unit |- _ => destruct u end.
    all: rewrite <- ?app_assoc in *; simpl in *; auto.
Qed.

(** X10.  [execute_query] and [execute_update] never change the
    connector: after a failed statement the session still holds the same
    connection and is still marked connected. *)
Theorem execute_leaves_the_session_as_it_is (W : World) sql params
    (st st' : state DBConnector.t) :
  (forall r, DBConnector.execute_query W sql params st = (r, st') -> self st' = self st) /\
  (forall r, DBConnector.execute_update W sql params st = (r, st') -> self st' = self st).
Proof.
  split; intros r H.
  - eapply db_execute_query_self, H.
  - eapply db_execute_update_self, H.
Qed.

(** X11.  Without tunneling, a successful [connect()] followed by
    [disconnect()] gives back the connector exactly as it was before, and
    the teardown is that of the connection just opened (for the cache
    session: one [close()] on the client). *)
Theorem connect_disconnect_round_trip (W : World) :
  (forall st st1 st2 : state DBConnector.t,
     DBConnector.use_ssh (self st) = false ->
     DBConnector.is_connected (self st) = false ->
     DBConnector.conn (self st) = None ->
     SSHTunnelManager.tunnel (DBConnector.base (self st)) = None ->
     DBConnector.connect W st = (Ok tt, st1) ->
     DBConnector.disconnect W st1 = (Ok tt, st2) ->
     self st2 = self st /\
     exists c, DBConnector.conn (self st1) = Some c /\
       trace st2 = trace st1 ++ db_close_calls W (trace st1) (self st1)) /\
  (forall st st1 st2 : state RedisConnector.t,
     RedisConnector.use_ssh (self st) = false ->
     RedisConnector.is_connected (self st) = false ->
     RedisConnector.redis_conn (self st) = None ->
     RedisConnector.connect W st = (Ok tt, st1) ->
     RedisConnector.disconnect W st1 = (Ok tt, st2) ->
     self st2 = self st /\
     exists r, RedisConnector.redis_conn (self st1) = Some r /\
       trace st2 = trace st1 ++ [redis_close r]).
Proof.
  split.
  - intros [[[cfg tun] ssh dbc c ic] h l] st1 st2. simpl. intros -> -> -> -> H1 H2.
    apply db_connect_ok in H1; [|reflexivity].
    revert H1 H2.
    unfold DBConnector.connect_try, DBConnector.connect_address,
      DBConnector.connect_backend, DBConnector.connect_probe.
    unfold_monad. simpl.
    run_to_outcome.
    all: intros [= <-]; unfold DBConnector.disconnect, db_close_calls;
      unfold_monad; simpl; rewrite ?Heqb, ?Heqb0; simpl.
    all: run; intros [= <-]; simpl; rewrite ?app_nil_r; eauto.
  - intros [[[cfg tun] ssh rc c ic] h l] st1 st2. simpl. intros -> -> -> H1 H2.
    apply redis_connect_ok in H1; [|reflexivity].
    revert H1 H2.
    unfold RedisConnector.connect_try, RedisConnector.connect_address,
      RedisConnector.connect_client, RedisConnector.connect_probe.
    unfold_monad. simpl.
    run_to_outcome.
    all: intros [= <-]; unfold RedisConnector.disconnect; unfold_monad; simpl.
    all: run; intros [= <-]; simpl; rewrite ?app_nil_r; eauto.
Qed.

(** Membership in a list that is written out. *)
Ltac in_list := simpl; repeat (first [left; reflexivity | right]).

Section Autocommit.
Context (W : World).

Lemma db_teardown_sets_nothing (s : DBConnector.t) (h h' : list call) x :
  In x (db_close_calls W h s
        ++ stop_calls W h' (SSHTunnelManager.tunnel (DBConnector.base s))) ->
  forall c b, x <> conn_set_autocommit c b.
Proof.
  unfold db_close_calls, stop_calls.
  repeat case_step; simpl; intuition (subst; discriminate).
Qed.

Lemma db_connect_try_autocommit (st st' : state DBConnector.t) r :
  DBConnector.connect_try W st = (r, st') ->
  exists d, trace st' = trace st ++ d /\
    (forall c b, In (conn_set_autocommit c b) d ->
       b = false /\
       DBConnector.type (DBConnector.db_config (self st)) = "postgresql" /\
       exists host port user password dbname,
         In (psycopg2_connect host port user password dbname) d) /\
    (r = Ok tt ->
     DBConnector.type (DBConnector.db_config (self st)) = "postgresql" ->
     exists c, DBConnector.conn (self st') = Some c /\
               In (conn_set_autocommit c false) d).
Proof.
  destruct st as [[[cfg tun] ssh dbc c ic] h l].
  unfold DBConnector.connect_try, DBConnector.connect_address,
    DBConnector.connect_backend, DBConnector.connect_probe,
    SSHTunnelManager._setup_ssh_tunnel.
  unfold_monad. simpl.
  destruct ssh; simpl.
  all: run; intros [= <- <-]; simpl; rewrite <- ?app_assoc; simpl.
  all: first [ eexists; split; [reflexivity|]
             | exists []; split; [rewrite app_nil_r; reflexivity|] ].
  all: split;
    [ intros c1 b1 Hin; simpl in Hin;
      repeat (destruct Hin as [Hin|Hin]); try discriminate Hin; try contradiction;
      injection Hin as <- <-;
      refine (conj eq_refl (conj _ _));
      try (apply String.eqb_eq; assumption);
      do 5 eexists; in_list
    | intros Hr Hty;
      first [ discriminate Hr
            | rewrite Hty in *; simpl in *; congruence
            | eexists; split; [reflexivity | in_list] ] ].
Qed.

End Autocommit.

(** X12.  [connect()] touches autocommit only on PostgreSQL and only to
    switch it off: any [autocommit] assignment it makes sets [False], on a
    session of type "postgresql", after a [psycopg2.connect]; and a
    successful [connect()] of such a session does make that assignment on
    the connection it keeps. *)
Theorem autocommit_is_disabled_on_postgresql_only (W : World)
    (st st' : state DBConnector.t) r :
  DBConnector.connect W st = (r, st') ->
  exists d, trace st' = trace st ++ d /\
    (forall c b, In (conn_set_autocommit c b) d ->
       b = false /\
       DBConnector.type (DBConnector.db_config (self st)) = "postgresql" /\
       exists host port user password dbname,
         In (psycopg2_connect host port user password dbname) d) /\
    (r = Ok tt ->
     DBConnector.is_connected (self st) = false ->
     DBConnector.type (DBConnector.db_config (self st)) = "postgresql" ->
     exists c, DBConnector.conn (self st') = Some c /\
               In (conn_set_autocommit c false) d).
Proof.
  unfold DBConnector.connect, bind, get_self, try_except.
  destruct (DBConnector.is_connected (self st)) eqn:Hc.
  { intros [= <- <-]. exists []. split; [simpl; rewrite app_nil_r; reflexivity|].
    split; [intros ? ? [] | intros _ Hn; discriminate Hn]. }
  destruct (DBConnector.connect_try W st) as [[[]|e] st1] eqn:Htry.
  - intros [= <- <-].
    destruct (db_connect_try_autocommit W _ _ _ Htry) as (d & Ht & Hd & Hok).
    exists d. auto.
  - destruct (db_connect_try_autocommit W _ _ _ Htry) as (d & Ht & Hd & _).
    unfold DBConnector.connect_except.
    destruct (isinstance e DBConnector.handled_connect).
    + unfold bind, logger_exception, logger, raise.
      match goal with
      | |- context [DBConnector.disconnect W ?s] =>
          destruct (db_disconnect_spec W s) as (st2 & Hrun & _ & _ & Ht2 & _)
      end.
      rewrite Hrun. intros [= <- <-]. simpl in Ht2. rewrite Ht2, Ht.
      eexists. split; [rewrite <- app_assoc; reflexivity|].
      split; [|intros Hr; discriminate Hr].
      intros c b Hin. apply in_app_iff in Hin as [Hin|Hin].
      * destruct (Hd c b Hin) as (Hb & Hty & host & port & user & pw & db & Hp).
        repeat split; auto. exists host, port, user, pw, db.
        apply in_app_iff. auto.
      * exfalso. eapply db_teardown_sets_nothing; [exact Hin | reflexivity].
    + intros [= <- <-]. exists d.
      split; [exact Ht|]. split; [exact Hd | intros Hr; discriminate Hr].
Qed.

(** X13.  The SQL constructor on a configuration that has the five
    required fields (and the SSH fields when tunneling is requested).  It
    makes no library call.  A [db_type] that is not a string raises
    [AttributeError]; a [db_port] of [None] raises [TypeError]; a
    [db_port] string that [int()] rejects raises the [ValueError] of
    [int()]; otherwise the connector is built, disconnected, with the type
    lowercased, the port converted and the other values taken as they are,
    empty or not. *)
Theorem db_constructor_value_errors (py : Builtins) (config : gmap string value)
    (use_ssh : bool) (st : state unit) vt vh vp vu vn :
  config !! "db_type" = Some vt ->
  config !! "db_host" = Some vh ->
  config !! "db_port" = Some vp ->
  config !! "db_user" = Some vu ->
  config !! "db_name" = Some vn ->
  (use_ssh = true ->
   is_Some (config !! "ssh_host") /\ is_Some (config !! "ssh_username")) ->
  DBConnector.__init__ py config use_ssh st =
    match vt with
    | VStr ty =>
        let made port :=
          (Ok (DBConnector.Build (SSHTunnelManager.Build config None) use_ssh
                 (DBConnector.BuildConfig (str_lower py ty) vh port vu
                    (dict_get config "db_password") vn)
                 None false), st) in
        match vp with
        | VInt z => made z
        | VStr p =>
            match str_int py p with
            | Some z => made z
            | None => (Raise (Exn ValueError "invalid literal for int() with base 10"), st)
            end
        | VNone => (Raise (Exn TypeError "int() argument must be a string or a number"), st)
        end
    | _ => (Raise (Exn AttributeError "object has no attribute 'lower'"), st)
    end.
Proof.
  intros Ht Hh Hp Hu Hn Hssh.
  unfold DBConnector.__init__, DBConnector.required. simpl.
  unfold dict_in. rewrite Ht, Hh, Hp, Hu, Hn. simpl.
  assert (Hs : use_ssh && negb (bool_decide (is_Some (config !! "ssh_host"))
                                && (bool_decide (is_Some (config !! "ssh_username")) && true))
               = false).
  { destruct use_ssh; [|reflexivity]. destruct (Hssh eq_refl) as [H1 H2].
    rewrite !bool_decide_eq_true_2 by assumption. reflexivity. }
  rewrite Hs.
  unfold py_lower, py_int, SSHTunnelManager.__init__. unfold_monad.
  rewrite Ht, Hh, Hp, Hu, Hn.
  destruct vt as [|z|ty]; try reflexivity.
  destruct vp as [|z|p]; try reflexivity.
  simpl. destruct (str_int py p); reflexivity.
Qed.

(** X14.  The cache constructor, once the SSH fields are in order: a
    [redis_host] that is present and false as a condition (empty string,
    [None], 0) is rejected like a missing one; with a true [redis_host]
    and no [redis_port] and [redis_db] the session is built with port 6379
    and database 0; a [redis_port] that is present and [None] raises
    [TypeError]. *)
Theorem redis_constructor_defaults_and_errors (py : Builtins)
    (config : gmap string value) (use_ssh : bool) (st : state unit) :
  (use_ssh = true ->
   is_Some (config !! "ssh_host") /\ is_Some (config !! "ssh_username")) ->
  (forall vh, config !! "redis_host" = Some vh -> truthy vh = false ->
     RedisConnector.__init__ py config use_ssh st
       = (Raise (Exn ValueError "必须提供redis_host配置"), st)) /\
  (forall vh, config !! "redis_host" = Some vh -> truthy vh = true ->
     config !! "redis_port" = None -> config !! "redis_db" = None ->
     RedisConnector.__init__ py config use_ssh st
       = (Ok (RedisConnector.Build (SSHTunnelManager.Build config None) use_ssh
                (RedisConnector.BuildConfig vh 6379 0 (dict_get config "redis_password") true)
                None false), st)) /\
  (forall vh, config !! "redis_host" = Some vh -> truthy vh = true ->
     config !! "redis_port" = Some VNone ->
     RedisConnector.__init__ py config use_ssh st
       = (Raise (Exn TypeError "int() argument must be a string or a number"), st)).
Proof.
  intros Hssh.
  assert (Hs : use_ssh && negb (forallb (fun k => dict_in k config)
                                  ["ssh_host"; "ssh_username"]) = false).
  { destruct use_ssh; [|reflexivity]. destruct (Hssh eq_refl) as [H1 H2].
    simpl. unfold dict_in. rewrite !bool_decide_eq_true_2 by assumption. reflexivity. }
  unfold RedisConnector.__init__. rewrite Hs.
  unfold dict_get, dict_get_default, py_int, SSHTunnelManager.__init__. unfold_monad.
  repeat split; intros vh Hh Htr.
  - rewrite Hh. simpl. rewrite Htr. reflexivity.
  - intros Hp Hd. rewrite Hh, Hp, Hd. simpl. rewrite Htr. reflexivity.
  - intros Hp. rewrite Hh, Hp. simpl. rewrite Htr. reflexivity.
Qed.

(** X15.  [_close_ssh_tunnel()] never raises.  An active tunnel is
    stopped once and its handle is dropped, also when [stop()] raises; a
    tunnel that is not active, or no tunnel, leaves everything as it was. *)
Theorem close_ssh_tunnel_drops_the_handle (W : World) (st : state SSHTunnelManager.t) :
  exists st',
    SSHTunnelManager._close_ssh_tunnel W st = (Ok tt, st') /\
    SSHTunnelManager.ssh_config (self st') = SSHTunnelManager.ssh_config (self st) /\
    match SSHTunnelManager.tunnel (self st) with
    | Some tun =>
        if tunnel_is_active W (trace st) tun
        then SSHTunnelManager.tunnel (self st') = None /\
             trace st' = trace st ++ [tunnel_stop tun]
        else st' = st
    | None => st' = st
    end.
Proof.
  destruct st as [[cfg tun] h l].
  unfold SSHTunnelManager._close_ssh_tunnel. unfold_monad. simpl.
  destruct tun as [tun|]; simpl.
  all: run; eexists; repeat split; reflexivity.
Qed.

(** X16.  [pymysql.connect] fails inside [MySQL.execute].  On an object
    that was never connected the caller gets the [AttributeError] of
    [self.conn.rollback()] on [None] in place of the connect error, while
    [MySQL.fetchall] passes the connect error on; neither makes another
    call.  On an object used before, [execute] sends the rollback and the
    cursor close to the connection and cursor of the previous call. *)
Theorem mysql_connect_failure (W : World) (py : Builtins) sql params
    (st : state MySQL.t) (e : exn) :
  let connect_call :=
    pymysql_connect (MySQL.host (self st)) (MySQL.port (self st)) (MySQL.user (self st))
      (MySQL.password (self st)) (MySQL.database (self st)) (MySQL.charset (self st))
      DefaultCursor in
  let tried := State (self st) (trace st ++ [connect_call]) (log st) in
  reply W (trace st) connect_call = inl e ->
  (MySQL.conn (self st) = None -> MySQL.cursor (self st) = None ->
   MySQL.execute W py sql params st
     = (Raise (Exn AttributeError "'NoneType' object has no attribute"), tried) /\
   MySQL.fetchall W sql params st = (Raise e, tried)) /\
  (forall c0 cur0,
     MySQL.conn (self st) = Some c0 -> MySQL.cursor (self st) = Some cur0 ->
     exists r st' d,
       MySQL.execute W py sql params st = (r, st') /\
       trace st' = trace st ++ connect_call :: conn_rollback c0 :: cursor_close cur0 :: d /\
       self st' = self st).
Proof.
  destruct st as [[host user pw db port cs c cur] h l]. simpl.
  intros Hfail.
  unfold MySQL.execute, MySQL.execute_try, MySQL.execute_except, MySQL.fetchall,
    MySQL.fetchall_try, MySQL.connect, MySQL.close.
  unfold_monad. simpl. rewrite Hfail. simpl.
  split.
  - intros -> ->. simpl. split; reflexivity.
  - intros c0 cur0 -> ->. simpl.
    run; rewrite <- ?app_assoc; simpl; eexists _, _, _; repeat split; reflexivity.
Qed.

(** X17.  The statement fails inside [MySQL.execute]: the call rolls
    back on the connection it opened, then closes its cursor, never
    commits, and raises; when the rollback and the two closes succeed it
    raises the error of the statement. *)
Theorem mysql_statement_failure (W : World) (py : Builtins) sql params
    (st : state MySQL.t) (e : exn) :
  let c := length (trace st) in
  let cur := S c in
  let connect_call :=
    pymysql_connect (MySQL.host (self st)) (MySQL.port (self st)) (MySQL.user (self st))
      (MySQL.password (self st)) (MySQL.database (self st)) (MySQL.charset (self st))
      DefaultCursor in
  let opened := trace st ++ [connect_call; conn_cursor c] in
  let stmt := cursor_execute cur sql params in
  reply W (trace st) connect_call = inr tt ->
  reply W (trace st ++ [connect_call]) (conn_cursor c) = inr tt ->
  reply W opened stmt = inl e ->
  exists r st' d,
    MySQL.execute W py sql params st = (r, st') /\
    trace st' = opened ++ stmt :: conn_rollback c :: cursor_close cur :: d /\
    (forall c', ~ In (conn_commit c') (stmt :: conn_rollback c :: cursor_close cur :: d)) /\
    (exists e', r = Raise e') /\
    (reply W (opened ++ [stmt]) (conn_rollback c) = inr tt ->
     reply W (opened ++ [stmt; conn_rollback c]) (cursor_close cur) = inr tt ->
     reply W (opened ++ [stmt; conn_rollback c; cursor_close cur]) (conn_close c) = inr tt ->
     r = Raise e /\ d = [conn_close c]).
Proof.
  destruct st as [[host user pw db port cs c0 cur0] h l]. simpl.
  intros Hconn Hcur Hstmt.
  unfold MySQL.execute, MySQL.execute_try, MySQL.execute_except, MySQL.connect, MySQL.close.
  unfold_monad. simpl.
  rewrite Hconn. simpl. rewrite Hcur. simpl.
  replace (length (h ++ [pymysql_connect host port user pw db cs DefaultCursor]))
    with (S (length h)) in * by (rewrite length_app; simpl; lia).
  rewrite <- !app_assoc in *. simpl in *. rewrite Hstmt. simpl.
  run; rewrite <- ?app_assoc in *; simpl in *.
  all: eexists _, _, _; split; [reflexivity|].
  all: split; [rewrite <- ?app_assoc; simpl; reflexivity|].
  all: split; [intros c' Hin; simpl in Hin; intuition discriminate|].
  all: split; [eauto|].
  all: rewrite <- ?app_assoc; simpl; intros H1 H2 H3; same_reply; auto.
Qed.

(** X18.  [MySQL.fetchall] once the connection and its two cursors are
    made: the cursor made by [connect()] is never closed, the second one
    is; nothing is committed or rolled back; and a call that returns has
    executed the statement on the second cursor, fetched, closed that
    cursor and the connection, and returns the rows fetched. *)
Theorem mysql_fetchall_closes_only_the_second_cursor (W : World) sql params
    (st : state MySQL.t) :
  let c := length (trace st) in
  let cur1 := S c in
  let cur2 := S (S c) in
  let connect_call :=
    pymysql_connect (MySQL.host (self st)) (MySQL.port (self st)) (MySQL.user (self st))
      (MySQL.password (self st)) (MySQL.database (self st)) (MySQL.charset (self st))
      DefaultCursor in
  let opened := trace st ++ [connect_call; conn_cursor c; conn_cursor c] in
  let stmt := cursor_execute cur2 sql params in
  reply W (trace st) connect_call = inr tt ->
  reply W (trace st ++ [connect_call]) (conn_cursor c) = inr tt ->
  reply W (trace st ++ [connect_call; conn_cursor c]) (conn_cursor c) = inr tt ->
  exists r st' d,
    MySQL.fetchall W sql params st = (r, st') /\
    trace st' = opened ++ d /\
    ~ In (cursor_close cur1) d /\
    In (cursor_close cur2) d /\
    (forall c', ~ In (conn_commit c') d /\ ~ In (conn_rollback c') d) /\
    (forall rs, r = Ok rs ->
       reply W (opened ++ [stmt]) (cursor_fetchall cur2) = inr rs /\
       d = [stmt; cursor_fetchall cur2; cursor_close cur2; conn_close c]).
Proof.
  destruct st as [[host user pw db port cs c0 cur0] h l]. simpl.
  intros Hconn Hcur1 Hcur2.
  unfold MySQL.fetchall, MySQL.fetchall_try, MySQL.connect, MySQL.close.
  unfold_monad. simpl.
  rewrite Hconn. simpl. rewrite Hcur1. simpl.
  rewrite <- !app_assoc in *. simpl in *. rewrite Hcur2. simpl.
  rewrite !length_app in *. simpl in *.
  replace (length h + 1)%nat with (S (length h)) in * by lia.
  replace (length h + 2)%nat with (S (S (length h))) in * by lia.
  run; rewrite <- ?app_assoc in *; simpl in *.
  all: eexists _, _, _; split; [reflexivity|].
  all: split; [rewrite <- ?app_assoc; simpl; reflexivity|].
  all: split; [intros Hin; simpl in Hin; intuition (try discriminate);
               match goal with
               | H : cursor_close _ = cursor_close _ |- _ => injection H; lia
               end|].
  all: split; [in_list|].
  all: split; [intros c'; split; intros Hin; simpl in Hin; intuition discriminate|].
  all: intros rs Hr; simplify_eq; auto.
Qed.

(** X19.  [get_mysql_connection()]: the reference returned points to an
    object; objects made before are untouched and other threads keep what
    they had; the same thread gets the same reference again, with nothing
    changed; another thread gets a different reference.  The bookkeeping
    ([wf]: stored references are valid and not shared) is kept. *)
Theorem one_connection_object_per_thread (s s1 : Package.t) (t1 r1 : nat) :
  let wf (s : Package.t) :=
    forall t r, Package.thread_local s !! t = Some r ->
      (r < length (Package.heap s))%nat /\
      forall t', Package.thread_local s !! t' = Some r -> t' = t in
  wf s ->
  Package.get_mysql_connection t1 s = (r1, s1) ->
  wf s1 /\
  is_Some (Package.heap s1 !! r1) /\
  (forall r o, Package.heap s !! r = Some o -> Package.heap s1 !! r = Some o) /\
  (forall t, t <> t1 -> Package.thread_local s1 !! t = Package.thread_local s !! t) /\
  Package.get_mysql_connection t1 s1 = (r1, s1) /\
  (forall t2, t2 <> t1 -> fst (Package.get_mysql_connection t2 s1) <> r1).
Proof.
  intros wf Hwf. unfold Package.get_mysql_connection.
  destruct s as [heap tl]. simpl.
  destruct (tl !! t1) as [r|] eqn:Ht1; intros [= <- <-]; simpl.
  - destruct (Hwf t1 r Ht1) as [Hlt Hinj]. simpl in *.
    refine (conj Hwf (conj _ (conj _ (conj _ (conj _ _))))); auto.
    + apply lookup_lt_is_Some_2. exact Hlt.
    + rewrite Ht1. reflexivity.
    + intros t2 Hne. destruct (tl !! t2) as [r'|] eqn:Ht2; simpl.
      * intros ->. apply Hne. apply (Hinj t2 Ht2).
      * lia.
  - assert (Hfresh : forall t, tl !! t <> Some (length heap)).
    { intros t Ht. apply Hwf in Ht as [Hlt _]. simpl in Hlt. lia. }
    refine (conj _ (conj _ (conj _ (conj _ (conj _ _))))).
    + intros t r H. simpl in *. split.
      * destruct (decide (t = t1)) as [->|Hne].
        -- rewrite lookup_insert_eq in H. injection H as <-.
           rewrite length_app. simpl. lia.
        -- rewrite lookup_insert_ne in H by congruence.
           apply Hwf in H as [Hlt _]. simpl in Hlt. rewrite length_app. lia.
      * intros t' Ht'.
        destruct (decide (t = t1)) as [->|Hne]; destruct (decide (t' = t1)) as [->|Hne'];
          try reflexivity.
        -- rewrite lookup_insert_eq in H. injection H as <-.
           rewrite lookup_insert_ne in Ht' by congruence. destruct (Hfresh _ Ht').
        -- rewrite lookup_insert_ne in H by congruence.
           rewrite lookup_insert_eq in Ht'. injection Ht' as <-. destruct (Hfresh _ H).
        -- rewrite lookup_insert_ne in H, Ht' by congruence.
           apply Hwf in H as [_ Hinj]. apply Hinj. exact Ht'.
    + apply lookup_lt_is_Some_2. rewrite length_app. simpl. lia.
    + intros r o Hr. rewrite lookup_app_l; [exact Hr|]. eapply lookup_lt_Some, Hr.
    + intros t Hne. apply lookup_insert_ne. congruence.
    + rewrite lookup_insert_eq. reflexivity.
    + intros t2 Hne. rewrite lookup_insert_ne by congruence.
      destruct (tl !! t2) as [r'|] eqn:Ht2; simpl.
      * intros ->. destruct (Hfresh _ Ht2).
      * rewrite length_app. simpl. lia.
Qed.

Lemma one_connection_object_per_thread_witness :
  Package.get_mysql_connection 7 (snd (Package.get_mysql_connection 7 Package.imported))
  = (1%nat, snd (Package.get_mysql_connection 7 Package.imported)).
Proof.
  refine (proj1 (proj2 (proj2 (proj2 (proj2
    (one_connection_object_per_thread Package.imported
       (snd (Package.get_mysql_connection 7 Package.imported)) 7 1 _ _)))))).
  - intros t r H. vm_compute in H. discriminate H.
  - vm_compute. reflexivity.
Defined.



Lemma redis_reconnect_forwards_to_loopback_witness :
  exists d,
    trace (snd (RedisConnector.connect calm
                  (snd (RedisConnector.disconnect calm
                          (snd (RedisConnector.connect calm (fresh rank_connector)))))))
    = trace (snd (RedisConnector.disconnect calm
                    (snd (RedisConnector.connect calm (fresh rank_connector))))) ++ d /\
    In (SSHTunnelForwarder (VStr "bastion") (VInt 22) (VStr "deploy") (VStr "secret")
          None (VStr "127.0.0.1") 40022) d.
Proof.
  destruct (redis_reconnect_forwards_to_loopback calm (fresh rank_connector)
              (snd (RedisConnector.connect calm (fresh rank_connector)))
              (snd (RedisConnector.disconnect calm
                      (snd (RedisConnector.connect calm (fresh rank_connector)))))
              (snd (RedisConnector.connect calm
                      (snd (RedisConnector.disconnect calm
                              (snd (RedisConnector.connect calm (fresh rank_connector)))))))
              (Ok tt) (Ok tt))
    as (d & Ht & _).
  all: try (vm_compute; reflexivity).
  exists d. split; [exact Ht|].
  vm_compute in Ht. inversion Ht. in_list.
Defined.

Lemma execute_query_returns_fetched_rows_witness :
  exists c,
    DBConnector.conn (self (gw_connected calm)) = Some c /\
    trace (snd (DBConnector.execute_query calm "SELECT * FROM rank" None (gw_connected calm)))
    = trace (gw_connected calm)
      ++ [conn_cursor c; cursor_execute 4%nat "SELECT * FROM rank" (Some []);
          cursor_fetchall 4%nat; cursor_close 4%nat].
Proof.
  destruct (proj1 (execute_query_returns_fetched_rows calm "SELECT * FROM rank" None
                     (gw_connected calm)
                     (snd (DBConnector.execute_query calm "SELECT * FROM rank" None
                             (gw_connected calm)))) [])
    as (c & _ & Hc & Ht & _).
  - vm_compute. reflexivity.
  - exists c. split; [exact Hc | exact Ht].
Defined.

Lemma execute_update_commits_then_returns_rowcount_witness :
  exists c,
    DBConnector.conn (self (gw_connected calm)) = Some c /\
    trace (snd (DBConnector.execute_update calm "UPDATE rank SET score = 0" None
                  (gw_connected calm)))
    = trace (gw_connected calm)
      ++ [conn_cursor c; cursor_execute 4%nat "UPDATE rank SET score = 0" (Some []);
          conn_commit c; cursor_close 4%nat].
Proof.
  destruct (proj1 (execute_update_commits_then_returns_rowcount calm
                     "UPDATE rank SET score = 0" None (gw_connected calm)
                     (snd (DBConnector.execute_update calm "UPDATE rank SET score = 0" None
                             (gw_connected calm)))) 1)
    as (c & _ & Hc & Ht & _).
  - vm_compute. reflexivity.
  - exists c. split; [exact Hc | exact Ht].
Defined.

Lemma execute_leaves_the_session_as_it_is_witness :
  self (snd (DBConnector.execute_update deadlocking "UPDATE rank SET score = 0" None
               (gw_connected deadlocking)))
  = self (gw_connected deadlocking).
Proof.
  apply (proj2 (execute_leaves_the_session_as_it_is deadlocking
                  "UPDATE rank SET score = 0" None (gw_connected deadlocking)
                  (snd (DBConnector.execute_update deadlocking "UPDATE rank SET score = 0"
                          None (gw_connected deadlocking))))
           (Raise deadlock)).
  vm_compute. reflexivity.
Defined.

Lemma connect_disconnect_round_trip_witness :
  self (snd (DBConnector.disconnect calm (gw_connected calm))) = gw_connector.
Proof.
  apply (proj1 (connect_disconnect_round_trip calm) (fresh gw_connector)
           (gw_connected calm) (snd (DBConnector.disconnect calm (gw_connected calm)))).
  all: try reflexivity.
  all: vm_compute; reflexivity.
Defined.

Lemma autocommit_is_disabled_on_postgresql_only_witness :
  exists d c,
    trace (snd (DBConnector.connect calm (fresh pg_connector))) = [] ++ d /\
    In (conn_set_autocommit c false) d.
Proof.
  destruct (autocommit_is_disabled_on_postgresql_only calm (fresh pg_connector)
              (snd (DBConnector.connect calm (fresh pg_connector))) (Ok tt))
    as (d & Ht & _ & Hpg).
  - vm_compute. reflexivity.
  - destruct Hpg as (c & _ & Hin); try reflexivity.
    exists d, c. split; [exact Ht | exact Hin].
Defined.

Lemma db_constructor_value_errors_witness :
  DBConnector.__init__ ascii_py (<["db_port" := VNone]> gw_config) false (fresh tt)
  = (Raise (Exn TypeError "int() argument must be a string or a number"), fresh tt).
Proof.
  apply (db_constructor_value_errors ascii_py (<["db_port" := VNone]> gw_config) false
           (fresh tt) (VStr "MySQL") (VStr "10.0.0.5") VNone (VStr "root") (VStr "gateway")).
  all: try (vm_compute; reflexivity).
  intros H. discriminate H.
Defined.

Lemma redis_constructor_defaults_and_errors_witness :
  RedisConnector.__init__ ascii_py (<["redis_host" := VStr ""]> rank_config) true (fresh tt)
  = (Raise (Exn ValueError "必须提供redis_host配置"), fresh tt).
Proof.
  refine (proj1 (redis_constructor_defaults_and_errors ascii_py
                   (<["redis_host" := VStr ""]> rank_config) true (fresh tt) _)
            (VStr "") _ _).
  - intros _. split; vm_compute; eauto.
  - vm_compute. reflexivity.
  - reflexivity.
Defined.

Lemma mysql_connect_failure_witness :
  MySQL.execute refusing ascii_py "select 1" None (fresh stock_db)
  = (Raise (Exn AttributeError "'NoneType' object has no attribute"),
     State stock_db
       [pymysql_connect (VStr "localhost") (VInt 3306) (VStr "root") (VStr "secret")
          (VStr "stock_daily_data") (VStr "utf8") DefaultCursor] []).
Proof.
  refine (proj1 (proj1 (mysql_connect_failure refusing ascii_py "select 1" None
                          (fresh stock_db) refused _) _ _)).
  all: reflexivity.
Defined.

Lemma mysql_statement_failure_witness :
  exists st',
    MySQL.execute deadlocking ascii_py "update daily set close = 0" None (fresh stock_db)
    = (Raise deadlock, st') /\
    In (conn_rollback 0%nat) (trace st').
Proof.
  destruct (mysql_statement_failure deadlocking ascii_py "update daily set close = 0" None
              (fresh stock_db) deadlock)
    as (r & st' & d & Hrun & Ht & _ & _ & Hok).
  all: try reflexivity.
  destruct Hok as [-> ->]; try reflexivity.
  exists st'. split; [exact Hrun|]. rewrite Ht. in_list.
Defined.

Lemma mysql_fetchall_closes_only_the_second_cursor_witness :
  exists r st' d,
    MySQL.fetchall calm "select code from daily" None (fresh stock_db) = (r, st') /\
    In (cursor_close 2%nat) d /\ ~ In (cursor_close 1%nat) d.
Proof.
  destruct (mysql_fetchall_closes_only_the_second_cursor calm "select code from daily" None
              (fresh stock_db))
    as (r & st' & d & Hrun & _ & Hnot & Hin & _).
  all: try reflexivity.
  exists r, st', d. auto.
Defined.
